(** * Document model / file editor binding

    A shallow embedding of

      - [packages/docregistry/src/default.ts]  ([DocumentModel],
        [ABCWidgetFactory], [MimeDocumentFactory])
      - [packages/fileeditor/src/widget.ts]    ([FileEditorCodeWrapper],
        [FileEditor])
      - [packages/coreutils/src/interfaces.ts] ([IChangedArgs])

    together with the parts of the JavaScript platform these classes call
    ([JSON.stringify], [JSON.parse], [String.prototype.replace],
    [String.prototype.split], [Array.prototype.slice]). *)

From Stdlib Require Import String Ascii List ZArith Bool Lia.
From Stdlib Require Import DecimalString DecimalZ.
From stdpp Require Import base gmap strings.
Import ListNotations.

Local Open Scope stdpp_scope.

(** ** Results of running a piece of the program

    A call returns, raises, or (in the embedding only) runs out of fuel. *)

Inductive Exception : Type :=
| SyntaxError.

Inductive Outcome (A : Type) : Type :=
| Returned (a : A)
| Raised (e : Exception)
| OutOfFuel.

Arguments Returned {A} a.
Arguments Raised {A} e.
Arguments OutOfFuel {A}.

#[global] Instance Outcome_ret : MRet Outcome := fun A a => Returned a.

#[global] Instance Outcome_bind : MBind Outcome := fun A B k m =>
  match m with
  | Returned a => k a
  | Raised e => Raised e
  | OutOfFuel => OutOfFuel
  end.

(** ** JavaScript strings

    A JavaScript string is a sequence of UTF-16 code units.  The embedding
    keeps a text as a [string] of bytes holding that sequence, one code unit
    after the other, each written as 1 to 3 bytes (see [bytes_of_code_unit]).
    Code units below 128, the only ones the program inspects, are one byte. *)

Module JSString.

(** [a.startsWith(p)] *)
Fixpoint startsWith (p s : string) : bool :=
  match p, s with
  | EmptyString, _ => true
  | String a p', String b s' => if Ascii.eqb a b then startsWith p' s' else false
  | String _ _, EmptyString => false
  end.

(** [s.slice(n)] *)
Fixpoint drop (n : nat) (s : string) : string :=
  match n, s with
  | O, _ => s
  | S n', String _ s' => drop n' s'
  | S _, EmptyString => EmptyString
  end.

(** [s.includes(p)] *)
Fixpoint includes (p s : string) : bool :=
  if startsWith p s then true
  else match s with
       | EmptyString => false
       | String _ s' => includes p s'
       end.

(** [s.replace(p, '')] with a string pattern: only the first occurrence
    of [p] is removed. *)
Fixpoint replace_first (p s : string) : string :=
  if startsWith p s then drop (String.length p) s
  else match s with
       | EmptyString => EmptyString
       | String c s' => String c (replace_first p s')
       end.

(** ASCII whitespace, the separators of a DOM class attribute. *)
Definition is_class_space (c : ascii) : bool :=
  match c with
  | "009" | "010" | "012" | "013" | " " => true
  | _ => false
  end%char.

(** The tokens of a class attribute (what [classList] holds). *)
Fixpoint tokens (s : string) : list string :=
  match s with
  | EmptyString => []
  | String c s' =>
      if is_class_space c then tokens s'
      else match s' with
           | EmptyString => [String c EmptyString]
           | String c' _ =>
               if is_class_space c' then String c EmptyString :: tokens s'
               else match tokens s' with
                    | t :: ts => String c t :: ts
                    | [] => [String c EmptyString]
                    end
           end
  end.

Definition has_token (t s : string) : bool :=
  existsb (String.eqb t) (tokens s).

(** [p] has no character [c]. *)
Fixpoint lacks (c : ascii) (p : string) : bool :=
  match p with
  | EmptyString => true
  | String x p' => negb (Ascii.eqb x c) && lacks c p'
  end.

End JSString.

(** ** JSON values, [JSON.stringify] and [JSON.parse]

    [JSONValue] of [@phosphor/coreutils]: null, booleans, numbers, strings,
    arrays and objects.  An object is kept as the list of its own properties
    in enumeration order.  Numbers are kept abstract: the platform's finite
    numbers, how they print and how a number literal is read, are an
    interface ([JSNumber]) with an integer instance below. *)

Module JSON.

(** Characters a JSON number literal is made of. *)
Definition is_num_char (c : ascii) : bool :=
  match c with
  | "0" | "1" | "2" | "3" | "4" | "5" | "6" | "7" | "8" | "9"
  | "-" | "+" | "." | "e" | "E" => true
  | _ => false
  end%char.

(** Characters a JSON number literal starts with. *)
Definition is_num_start (c : ascii) : bool :=
  match c with
  | "0" | "1" | "2" | "3" | "4" | "5" | "6" | "7" | "8" | "9"
  | "-" => true
  | _ => false
  end%char.

(** Characters a serialised value starts with. *)
Definition is_value_start (c : ascii) : bool :=
  is_num_start c ||
  match c with
  | "n" | "t" | "f" | "034"%char | "[" | "{" => true
  | _ => false
  end%char.

Fixpoint all_chars (P : ascii -> bool) (s : string) : bool :=
  match s with
  | EmptyString => true
  | String c s' => P c && all_chars P s'
  end.

Definition starts_with_char (P : ascii -> bool) (s : string) : bool :=
  match s with
  | EmptyString => false
  | String c _ => P c
  end.

(** The finite numbers of the platform: [num_to_string] is
    [Number.prototype.toString] as [JSON.stringify] uses it, and
    [num_of_string] reads a JSON number literal. *)
Class JSNumber (num : Type) := {
  num_to_string : num -> string;
  num_of_string : string -> option num;
  num_to_string_chars : forall n, all_chars is_num_char (num_to_string n) = true;
  num_to_string_start : forall n, starts_with_char is_num_start (num_to_string n) = true;
  num_of_to_string : forall n, num_of_string (num_to_string n) = Some n
}.

Unset Elimination Schemes.
Inductive JSONValue (num : Type) : Type :=
| JNull
| JBool (b : bool)
| JNumber (n : num)
| JString (s : string)
| JArray (elements : list (JSONValue num))
| JObject (members : list (string * JSONValue num)).
Set Elimination Schemes.

Arguments JNull {num}.
Arguments JBool {num} b.
Arguments JNumber {num} n.
Arguments JString {num} s.
Arguments JArray {num} elements.
Arguments JObject {num} members.

(** *** Serialisation *)

Definition hex_digit (n : N) : ascii :=
  match n with
  | 0 => "0" | 1 => "1" | 2 => "2" | 3 => "3" | 4 => "4" | 5 => "5"
  | 6 => "6" | 7 => "7" | 8 => "8" | 9 => "9" | 10 => "a" | 11 => "b"
  | 12 => "c" | 13 => "d" | 14 => "e" | _ => "f"
  end%N%char.

(** One character of [QuoteJSONString]. *)
Definition quote_char (c : ascii) : string :=
  match c with
  | "008"%char => "\b"
  | "009"%char => "\t"
  | "010"%char => "\n"
  | "012"%char => "\f"
  | "013"%char => "\r"
  | "034"%char => String "\" (String "034"%char EmptyString)
  | "\"%char => "\\"
  | _ =>
      let n := N_of_ascii c in
      if (n <? 32)%N
      then "\u00" +:+ String (hex_digit (n / 16)) (String (hex_digit (n mod 16)) EmptyString)
      else String c EmptyString
  end.

Fixpoint quote_chars (s : string) : string :=
  match s with
  | EmptyString => EmptyString
  | String c s' => quote_char c +:+ quote_chars s'
  end.

(** [QuoteJSONString] *)
Definition quote (s : string) : string :=
  String "034"%char (quote_chars s +:+ String "034"%char EmptyString).

(** The serialised elements of an array, or members of an object,
    separated by commas and followed by the closing bracket. *)
Fixpoint join (close : string) (parts : list string) : string :=
  match parts with
  | [] => close
  | [x] => x +:+ close
  | x :: parts' => x +:+ "," +:+ join close parts'
  end.

Section Stringify.
Context {num : Type} `{JSNumber num}.

(** [JSON.stringify(v)] with no replacer and no indentation. *)
Fixpoint stringify (v : JSONValue num) : string :=
  match v with
  | JNull => "null"
  | JBool true => "true"
  | JBool false => "false"
  | JNumber n => num_to_string n
  | JString s => quote s
  | JArray l => "[" +:+ join "]" (List.map stringify l)
  | JObject m =>
      "{" +:+ join "}" (List.map (fun '(k, x) => quote k +:+ ":" +:+ stringify x) m)
  end.

(** One member of a serialised object. *)
Definition stringify_member (kx : string * JSONValue num) : string :=
  let '(k, x) := kx in quote k +:+ ":" +:+ stringify x.

(** The properties of every object are distinct. *)
Fixpoint well_formed (v : JSONValue num) : bool :=
  match v with
  | JArray l => forallb well_formed l
  | JObject m =>
      bool_decide (NoDup (List.map fst m)) &&
      forallb (fun '(_, x) => well_formed x) m
  | _ => true
  end.

(** The number of values in a value. *)
Fixpoint size (v : JSONValue num) : nat :=
  match v with
  | JArray l => S (list_sum (List.map size l))
  | JObject m => S (list_sum (List.map (fun '(_, x) => size x) m))
  | _ => 1
  end.
End Stringify.

(** *** Parsing *)

(** JSON white space: tab, line feed, carriage return, space. *)
Definition is_ws (c : ascii) : bool :=
  match c with
  | "009" | "010" | "013" | " " => true
  | _ => false
  end%char.

Fixpoint skip_ws (s : string) : string :=
  match s with
  | String c s' => if is_ws c then skip_ws s' else s
  | EmptyString => EmptyString
  end.

Definition hex_value (c : ascii) : option N :=
  let n := N_of_ascii c in
  (if (48 <=? n) && (n <=? 57) then Some (n - 48)          (* 0-9 *)
   else if (97 <=? n) && (n <=? 102) then Some (n - 87)    (* a-f *)
   else if (65 <=? n) && (n <=? 70) then Some (n - 55)     (* A-F *)
   else None)%N.

(** The bytes that hold one code unit [n < 65536]. *)
Definition bytes_of_code_unit (n : N) : string :=
  (if n <? 128 then String (ascii_of_N n) EmptyString
   else if n <? 2048 then
     String (ascii_of_N (192 + n / 64))
       (String (ascii_of_N (128 + n mod 64)) EmptyString)
   else
     String (ascii_of_N (224 + n / 4096))
       (String (ascii_of_N (128 + (n / 64) mod 64))
          (String (ascii_of_N (128 + n mod 64)) EmptyString)))%N.

Definition code_unit_of_hex (h1 h2 h3 h4 : ascii) : option N :=
  match hex_value h1, hex_value h2, hex_value h3, hex_value h4 with
  | Some a, Some b, Some c, Some d => Some (((a * 16 + b) * 16 + c) * 16 + d)%N
  | _, _, _, _ => None
  end.

(** The characters of a string literal after its opening quote, up to and
    including the closing quote; returns the string and what follows. *)
Fixpoint parse_chars (s : string) : option (string * string) :=
  let cons (c : string) (r : option (string * string)) :=
    match r with
    | Some (str, rest) => Some (c +:+ str, rest)
    | None => None
    end in
  match s with
  | EmptyString => None
  | String c s' =>
      if Ascii.eqb c "034"%char then Some (EmptyString, s')
      else if Ascii.eqb c "\" then
        match s' with
        | String e s'' =>
            match e with
            | "034"%char => cons (String "034"%char EmptyString) (parse_chars s'')
            | "\"%char => cons "\" (parse_chars s'')
            | "/"%char => cons "/" (parse_chars s'')
            | "b"%char => cons (String "008" EmptyString) (parse_chars s'')
            | "f"%char => cons (String "012" EmptyString) (parse_chars s'')
            | "n"%char => cons (String "010" EmptyString) (parse_chars s'')
            | "r"%char => cons (String "013" EmptyString) (parse_chars s'')
            | "t"%char => cons (String "009" EmptyString) (parse_chars s'')
            | "u"%char =>
                match s'' with
                | String h1 (String h2 (String h3 (String h4 s3))) =>
                    match code_unit_of_hex h1 h2 h3 h4 with
                    | Some n => cons (bytes_of_code_unit n) (parse_chars s3)
                    | None => None
                    end
                | _ => None
                end
            | _ => None
            end
        | EmptyString => None
        end
      else if (N_of_ascii c <? 32)%N then None
      else cons (String c EmptyString) (parse_chars s')
  end.

(** The longest prefix made of number characters, and what follows. *)
Fixpoint span_num (s : string) : string * string :=
  match s with
  | String c s' =>
      if is_num_char c
      then let '(lexeme, rest) := span_num s' in (String c lexeme, rest)
      else (EmptyString, s)
  | EmptyString => (EmptyString, EmptyString)
  end.

(** [s] without the prefix [p], when it has it. *)
Fixpoint strip_prefix (p s : string) : option string :=
  match p, s with
  | EmptyString, _ => Some s
  | String a p', String b s' => if Ascii.eqb a b then strip_prefix p' s' else None
  | String _ _, EmptyString => None
  end.

(** Result of a parser: a value and the remaining input, a syntax error,
    or not enough fuel. *)
Inductive PResult (A : Type) : Type :=
| POk (a : A) (rest : string)
| PErr
| PFuel.

Arguments POk {A} a rest.
Arguments PErr {A}.
Arguments PFuel {A}.

(** [CreateDataProperty] on the object under construction: a repeated key
    keeps its place and takes the new value. *)
Fixpoint define_property {A : Type} (k : string) (x : A) (m : list (string * A))
  : list (string * A) :=
  match m with
  | [] => [(k, x)]
  | (k', x') :: m' =>
      if String.eqb k k' then (k, x) :: m' else (k', x') :: define_property k x m'
  end.

Definition object_of_members {A : Type} (m : list (string * A)) : list (string * A) :=
  fold_left (fun acc kx => define_property (fst kx) (snd kx) acc) m [].

Section Parse.
Context {num : Type} `{JSNumber num}.

Definition literal (p : string) (v : JSONValue num) (s : string)
  : PResult (JSONValue num) :=
  match strip_prefix p s with
  | Some rest => POk v rest
  | None => PErr
  end.

(** [parse_value] reads one value at the head of [s] (white space
    already skipped); [parse_elements] reads the elements of an array
    after the first one is known to be there, up to the closing bracket;
    [parse_members] does the same for an object. *)
Fixpoint parse_value (fuel : nat) (s : string) : PResult (JSONValue num) :=
  match fuel with
  | O => PFuel
  | S fuel' =>
      match s with
      | EmptyString => PErr
      | String c s' =>
          match c with
          | "n"%char => literal "null" JNull s
          | "t"%char => literal "true" (JBool true) s
          | "f"%char => literal "false" (JBool false) s
          | "034"%char =>
              match parse_chars s' with
              | Some (str, rest) => POk (JString str) rest
              | None => PErr
              end
          | "["%char =>
              match skip_ws s' with
              | EmptyString => PErr
              | String c1 rest as s1 =>
                  if Ascii.eqb c1 "]" then POk (JArray []) rest
                  else
                    match parse_elements fuel' s1 with
                    | POk l rest' => POk (JArray l) rest'
                    | PErr => PErr
                    | PFuel => PFuel
                    end
              end
          | "{"%char =>
              match skip_ws s' with
              | EmptyString => PErr
              | String c1 rest as s1 =>
                  if Ascii.eqb c1 "}" then POk (JObject []) rest
                  else
                    match parse_members fuel' s1 with
                    | POk m rest' => POk (JObject (object_of_members m)) rest'
                    | PErr => PErr
                    | PFuel => PFuel
                    end
              end
          | _ =>
              if is_num_start c then
                let '(lexeme, rest) := span_num s in
                match num_of_string lexeme with
                | Some n => POk (JNumber n) rest
                | None => PErr
                end
              else PErr
          end
      end
  end
with parse_elements (fuel : nat) (s : string) : PResult (list (JSONValue num)) :=
  match fuel with
  | O => PFuel
  | S fuel' =>
      match parse_value fuel' s with
      | POk v rest =>
          match skip_ws rest with
          | String "]" rest' => POk [v] rest'
          | String "," rest' =>
              match parse_elements fuel' (skip_ws rest') with
              | POk l rest'' => POk (v :: l) rest''
              | PErr => PErr
              | PFuel => PFuel
              end
          | _ => PErr
          end%char
      | PErr => PErr
      | PFuel => PFuel
      end
  end
with parse_members (fuel : nat) (s : string)
  : PResult (list (string * JSONValue num)) :=
  match fuel with
  | O => PFuel
  | S fuel' =>
      match s with
      | String "034"%char s' =>
          match parse_chars s' with
          | Some (k, rest) =>
              match skip_ws rest with
              | String ":" rest1 =>
                  match parse_value fuel' (skip_ws rest1) with
                  | POk v rest2 =>
                      match skip_ws rest2 with
                      | String "}" rest' => POk [(k, v)] rest'
                      | String "," rest' =>
                          match parse_members fuel' (skip_ws rest') with
                          | POk m rest'' => POk ((k, v) :: m) rest''
                          | PErr => PErr
                          | PFuel => PFuel
                          end
                      | _ => PErr
                      end%char
                  | PErr => PErr
                  | PFuel => PFuel
                  end
              | _ => PErr
              end%char
          | None => PErr
          end
      | _ => PErr
      end%char
  end.

(** What the parser does on the serialisation of [v] followed by
    [rest], given fuel for twice the size of [v] and a [rest] that does
    not extend a number. *)
Definition reads_back (v : JSONValue num) : Prop :=
  well_formed v = true ->
  forall fuel rest,
    2 * size v <= fuel ->
    starts_with_char is_num_char rest = false ->
    parse_value fuel (stringify v +:+ rest) = POk v rest.

(** [JSON.parse(text)]: one value, white space around it, nothing else. *)
Definition parse (text : string) : Outcome (JSONValue num) :=
  match parse_value (S (2 * String.length text)) (skip_ws text) with
  | POk v rest =>
      match skip_ws rest with
      | EmptyString => Returned v
      | String _ _ => Raised SyntaxError
      end
  | PErr => Raised SyntaxError
  | PFuel => OutOfFuel
  end.
End Parse.

(** *** Integers as an instance of the number interface *)

Definition Z_to_string (z : Z) : string :=
  NilZero.string_of_int (Z.to_int z).

(** Accepts exactly the literals [Z_to_string] produces: an optional
    minus sign, then [0] or digits that do not start with [0]. *)
Definition Z_of_string (s : string) : option Z :=
  match NilZero.int_of_string s with
  | Some d =>
      let z := Z.of_int d in
      if String.eqb (Z_to_string z) s then Some z else None
  | None => None
  end.

End JSON.

(** ** Data model *)

(** [IChangedArgs<T>] of [packages/coreutils/src/interfaces.ts]. *)
Record IChangedArgs (T : Type) : Type := mkChangedArgs {
  name : string;
  oldValue : T;
  newValue : T
}.

Arguments mkChangedArgs {T} name oldValue newValue.
Arguments name {T} _.
Arguments oldValue {T} _.
Arguments newValue {T} _.

(** The private state of a [DocumentModel]; [value_text] is
    [this.value.text]. *)
Record DocumentModel : Type := mkDocumentModel {
  value_text : string;
  _defaultLang : string;
  _dirty : bool;
  _readOnly : bool
}.

(** A participant of a collaborative session. *)
Module ICollaborator.
Record t : Type := mk {
  sessionId : string;
  displayName : string;
  color : string
}.
End ICollaborator.

(** [CodeEditor.ISelectionStyle] *)
Module ISelectionStyle.
Record t : Type := mk {
  className : string;
  displayName : string;
  color : string
}.
End ISelectionStyle.

(** A selection range in the text: line and column of its two ends. *)
Record ITextSelection : Type := mkTextSelection {
  sel_start : nat * nat;
  sel_end : nat * nat
}.

(** [modelDB.collaborators]: the local collaborator and the roster, a map
    keyed by session identifier. *)
Record Collaborators : Type := mkCollaborators {
  localCollaborator : ICollaborator.t;
  roster : gmap string ICollaborator.t
}.

(** [collaborators.has(key)] *)
Definition has (c : Collaborators) (key : string) : bool :=
  bool_decide (is_Some (roster c !! key)).

Record ModelDB : Type := mkModelDB {
  isCollaborative : bool;
  collaborators : option Collaborators
}.

(** [editor.model]: the constructor hands [context.model] to the editor
    factory, so the editor normally edits the document model itself
    ([ContextModel]); a factory that gives its editor a model of its own is
    covered by [OwnModel], which holds that model's text. *)
Inductive EditorModel : Type :=
| ContextModel
| OwnModel (text : string).

(** [this.editor].  [history] is the undo history: the texts the editor's
    buffer held before each recorded change, latest first. *)
Record Editor : Type := mkEditor {
  editor_model : EditorModel;
  history : list string;
  selections : gmap string (list ITextSelection);
  uuid : string;
  selectionStyle : ISelectionStyle.t
}.

(** What the program did that an observer can see, in order. *)
Inductive Event : Type :=
| Emit_contentChanged (dirty_at_emit : bool)
    (** [this._contentChanged.emit(void 0)], with the value of [model.dirty]
        a handler reads during the delivery *)
| Emit_stateChanged (args : IChangedArgs bool)
    (** [this._stateChanged.emit(args)] *)
| Editor_write (value : string).
    (** an assignment [editor.model.value.text = value] made by the widget *)

(** One [FileEditorCodeWrapper], the context it was built on and the
    editor it wraps. *)
Record World : Type := mkWorld {
  model : DocumentModel;                   (* this._context.model *)
  modelDB : ModelDB;                       (* this._context.model.modelDB *)
  editor : Editor;                         (* this.editor *)
  isDisposed : bool;                       (* this.isDisposed *)
  title_className : string;                (* this.title.className *)
  ready_resolved : bool;                   (* this._ready has been resolved *)
  ready_callback : bool;                   (* context.ready.then(...) is waiting *)
  connected_callback : bool;               (* modelDB.connected.then(...) is waiting *)
  stateChanged_connected : bool;           (* _onModelStateChanged is connected *)
  contentChanged_connected : bool;         (* _onContentChanged is connected *)
  collaboratorsChanged_connected : bool;   (* _onCollaboratorsChanged is connected *)
  trace : list Event
}.

(** Field updates. *)

Definition with_model (m : DocumentModel) (w : World) : World :=
  mkWorld m (modelDB w) (editor w) (isDisposed w) (title_className w)
    (ready_resolved w) (ready_callback w) (connected_callback w)
    (stateChanged_connected w) (contentChanged_connected w)
    (collaboratorsChanged_connected w) (trace w).

Definition with_modelDB (d : ModelDB) (w : World) : World :=
  mkWorld (model w) d (editor w) (isDisposed w) (title_className w)
    (ready_resolved w) (ready_callback w) (connected_callback w)
    (stateChanged_connected w) (contentChanged_connected w)
    (collaboratorsChanged_connected w) (trace w).

Definition with_editor (e : Editor) (w : World) : World :=
  mkWorld (model w) (modelDB w) e (isDisposed w) (title_className w)
    (ready_resolved w) (ready_callback w) (connected_callback w)
    (stateChanged_connected w) (contentChanged_connected w)
    (collaboratorsChanged_connected w) (trace w).

Definition with_isDisposed (b : bool) (w : World) : World :=
  mkWorld (model w) (modelDB w) (editor w) b (title_className w)
    (ready_resolved w) (ready_callback w) (connected_callback w)
    (stateChanged_connected w) (contentChanged_connected w)
    (collaboratorsChanged_connected w) (trace w).

Definition with_title_className (c : string) (w : World) : World :=
  mkWorld (model w) (modelDB w) (editor w) (isDisposed w) c
    (ready_resolved w) (ready_callback w) (connected_callback w)
    (stateChanged_connected w) (contentChanged_connected w)
    (collaboratorsChanged_connected w) (trace w).

Definition with_ready_resolved (b : bool) (w : World) : World :=
  mkWorld (model w) (modelDB w) (editor w) (isDisposed w) (title_className w)
    b (ready_callback w) (connected_callback w)
    (stateChanged_connected w) (contentChanged_connected w)
    (collaboratorsChanged_connected w) (trace w).

Definition with_ready_callback (b : bool) (w : World) : World :=
  mkWorld (model w) (modelDB w) (editor w) (isDisposed w) (title_className w)
    (ready_resolved w) b (connected_callback w)
    (stateChanged_connected w) (contentChanged_connected w)
    (collaboratorsChanged_connected w) (trace w).

Definition with_connected_callback (b : bool) (w : World) : World :=
  mkWorld (model w) (modelDB w) (editor w) (isDisposed w) (title_className w)
    (ready_resolved w) (ready_callback w) b
    (stateChanged_connected w) (contentChanged_connected w)
    (collaboratorsChanged_connected w) (trace w).

Definition with_stateChanged_connected (b : bool) (w : World) : World :=
  mkWorld (model w) (modelDB w) (editor w) (isDisposed w) (title_className w)
    (ready_resolved w) (ready_callback w) (connected_callback w)
    b (contentChanged_connected w)
    (collaboratorsChanged_connected w) (trace w).

Definition with_contentChanged_connected (b : bool) (w : World) : World :=
  mkWorld (model w) (modelDB w) (editor w) (isDisposed w) (title_className w)
    (ready_resolved w) (ready_callback w) (connected_callback w)
    (stateChanged_connected w) b
    (collaboratorsChanged_connected w) (trace w).

Definition with_collaboratorsChanged_connected (b : bool) (w : World) : World :=
  mkWorld (model w) (modelDB w) (editor w) (isDisposed w) (title_className w)
    (ready_resolved w) (ready_callback w) (connected_callback w)
    (stateChanged_connected w) (contentChanged_connected w)
    b (trace w).

Definition record (e : Event) (w : World) : World :=
  mkWorld (model w) (modelDB w) (editor w) (isDisposed w) (title_className w)
    (ready_resolved w) (ready_callback w) (connected_callback w)
    (stateChanged_connected w) (contentChanged_connected w)
    (collaboratorsChanged_connected w) (trace w ++ [e]).

Definition model_with_text (v : string) (m : DocumentModel) : DocumentModel :=
  mkDocumentModel v (_defaultLang m) (_dirty m) (_readOnly m).

Definition model_with_dirty (b : bool) (m : DocumentModel) : DocumentModel :=
  mkDocumentModel (value_text m) (_defaultLang m) b (_readOnly m).

Definition model_with_readOnly (b : bool) (m : DocumentModel) : DocumentModel :=
  mkDocumentModel (value_text m) (_defaultLang m) (_dirty m) b.

Definition editor_with_model (em : EditorModel) (e : Editor) : Editor :=
  mkEditor em (history e) (selections e) (uuid e) (selectionStyle e).

Definition editor_with_history (h : list string) (e : Editor) : Editor :=
  mkEditor (editor_model e) h (selections e) (uuid e) (selectionStyle e).

Definition editor_with_selections (s : gmap string (list ITextSelection)) (e : Editor)
  : Editor :=
  mkEditor (editor_model e) (history e) s (uuid e) (selectionStyle e).

Definition editor_with_uuid (u : string) (e : Editor) : Editor :=
  mkEditor (editor_model e) (history e) (selections e) u (selectionStyle e).

Definition editor_with_selectionStyle (s : ISelectionStyle.t) (e : Editor) : Editor :=
  mkEditor (editor_model e) (history e) (selections e) (uuid e) s.

(** [editor.model.value.text] *)
Definition editor_text (w : World) : string :=
  match editor_model (editor w) with
  | ContextModel => value_text (model w)
  | OwnModel text => text
  end.

(** The number of buffer writes the widget made so far. *)
Definition is_editor_write (e : Event) : bool :=
  match e with
  | Editor_write _ => true
  | _ => false
  end.

Definition buffer_writes (w : World) : nat :=
  length (List.filter is_editor_write (trace w)).

(** ** The program *)

(** The class name added to a dirty widget. *)
Definition DIRTY_CLASS : string := "jp-mod-dirty".

(** The owner of a text buffer an assignment [x.value.text = v] goes to. *)
Inductive ModelRef : Type :=
| OfContext   (* this._context.model *)
| OfEditor.   (* this.editor.model *)

Section Program.

(** Whether the text setter of the observable string behind
    [model.value] emits its [changed] signal when the value assigned is
    the one it already holds.  The observable string is not part of the
    sources at hand; what the program does is stated for both answers
    unless said otherwise. *)
Variable notify_unchanged : bool.

(** [CodeEditor.defaultSelectionStyle] *)
Variable defaultSelectionStyle : ISelectionStyle.t.

Context {num : Type} `{JSON.JSNumber num}.

(** *** [FileEditorCodeWrapper]: dirty state *)

(** [_handleDirtyState] (widget.ts 149-155) *)
Definition _handleDirtyState (w : World) : World :=
  if _dirty (model w)
  then with_title_className (title_className w +:+ " " +:+ DIRTY_CLASS) w
  else with_title_className
         (JSString.replace_first DIRTY_CLASS (title_className w)) w.

(** [_onModelStateChanged] (widget.ts 140-144) *)
Definition _onModelStateChanged (args : IChangedArgs bool) (w : World) : World :=
  if String.eqb (name args) "dirty" then _handleDirtyState w else w.

(** *** [DocumentModel]: state *)

(** [triggerStateChange] (default.ts 164-166): emits [stateChanged],
    which runs the widget's handler when it is connected. *)
Definition triggerStateChange (args : IChangedArgs bool) (w : World) : World :=
  let w1 := record (Emit_stateChanged args) w in
  if stateChanged_connected w1 then _onModelStateChanged args w1 else w1.

(** [set dirty] (default.ts 83-90) *)
Definition set_dirty (newValue : bool) (w : World) : World :=
  if Bool.eqb newValue (_dirty (model w)) then w
  else
    let oldValue := _dirty (model w) in
    let w1 := with_model (model_with_dirty newValue (model w)) w in
    triggerStateChange (mkChangedArgs "dirty" oldValue newValue) w1.

(** [set readOnly] (default.ts 98-105) *)
Definition set_readOnly (newValue : bool) (w : World) : World :=
  if Bool.eqb newValue (_readOnly (model w)) then w
  else
    let oldValue := _readOnly (model w) in
    let w1 := with_model (model_with_readOnly newValue (model w)) w in
    triggerStateChange (mkChangedArgs "readOnly" oldValue newValue) w1.

(** [toString] (default.ts 130-132) *)
Definition toString (m : DocumentModel) : string := value_text m.

(** *** Text buffers *)

(** Whether an assignment of [v] to an observable string holding [old]
    stores the value and emits [changed]. *)
Definition takes_effect (old v : string) : bool :=
  notify_unchanged || negb (String.eqb old v).

(** [_onContentChanged] (widget.ts 160-168), over the assignment to the
    editor's buffer. *)
Definition _onContentChanged_with
    (set_editor_text : string -> World -> Outcome World) (w : World)
  : Outcome World :=
  let oldValue := editor_text w in
  let newValue := toString (model w) in
  if negb (String.eqb oldValue newValue)
  then set_editor_text newValue w
  else Returned w.

(** [triggerContentChange] (default.ts 171-174), over the widget's
    handler: emit [contentChanged], then set [dirty]. *)
Definition triggerContentChange_with
    (onContentChanged : World -> Outcome World) (w : World) : Outcome World :=
  let w1 := record (Emit_contentChanged (_dirty (model w))) w in
  w2 ← (if contentChanged_connected w1 then onContentChanged w1 else Returned w1);
  Returned (set_dirty true w2).

(** The editor records a change of its buffer in its history. *)
Definition push_history (old : string) (w : World) : World :=
  with_editor (editor_with_history (old :: history (editor w)) (editor w)) w.

(** The assignment [target.value.text = v].

    On the document model the [changed] signal of [value] runs
    [triggerContentChange], which the constructor of [DocumentModel]
    connects (default.ts 60), and then the editor attached to that model
    records the change.  A model the editor owns has no listener in this
    program besides the editor. *)
Fixpoint value_set_text (fuel : nat) (target : ModelRef) (v : string) (w : World)
  : Outcome World :=
  match fuel with
  | O => OutOfFuel
  | S fuel' =>
      let w0 := match target with
                | OfEditor => record (Editor_write v) w
                | OfContext => w
                end in
      match target, editor_model (editor w0) with
      | OfEditor, OwnModel old =>
          if takes_effect old v
          then Returned (push_history old
                           (with_editor (editor_with_model (OwnModel v) (editor w0)) w0))
          else Returned w0
      | _, em =>
          let old := value_text (model w0) in
          if takes_effect old v then
            let w1 := with_model (model_with_text v (model w0)) w0 in
            w2 ← triggerContentChange_with
                   (_onContentChanged_with (value_set_text fuel' OfEditor)) w1;
            Returned (match em with
                      | ContextModel => push_history old w2
                      | OwnModel _ => w2
                      end)
          else Returned w0
      end
  end.

(** [_onContentChanged] (widget.ts 160-168) *)
Definition _onContentChanged (fuel : nat) (w : World) : Outcome World :=
  _onContentChanged_with (value_set_text fuel OfEditor) w.

(** [triggerContentChange] (default.ts 171-174) *)
Definition triggerContentChange (fuel : nat) (w : World) : Outcome World :=
  triggerContentChange_with (_onContentChanged fuel) w.

(** *** [DocumentModel]: content *)

(** [fromString] (default.ts 140-142) *)
Definition fromString (fuel : nat) (value : string) (w : World) : Outcome World :=
  value_set_text fuel OfContext value w.

(** [toJSON] (default.ts 147-149): [JSON.parse(this.value.text || 'null')];
    the empty string is the only string that is falsy. *)
Definition toJSON (m : DocumentModel) : Outcome (JSON.JSONValue num) :=
  JSON.parse (if String.eqb (value_text m) EmptyString then "null" else value_text m).

(** [fromJSON] (default.ts 157-159) *)
Definition fromJSON (fuel : nat) (value : JSON.JSONValue num) (w : World)
  : Outcome World :=
  fromString fuel (JSON.stringify value) w.

(** *** [FileEditorCodeWrapper] *)

(** [editor.clearHistory()] *)
Definition clearHistory (w : World) : World :=
  with_editor (editor_with_history [] (editor w)) w.

(** [_onContextReady] (widget.ts 114-135) *)
Definition _onContextReady (fuel : nat) (w : World) : Outcome World :=
  if isDisposed w then Returned w
  else
    w1 ← value_set_text fuel OfEditor (toString (model w)) w;
    let w2 := clearHistory w1 in
    let w3 := _handleDirtyState w2 in
    let w4 := with_stateChanged_connected true w3 in
    let w5 := with_contentChanged_connected true w4 in
    Returned (with_ready_resolved true w5).

(** [_onCollaboratorsChanged] (widget.ts 174-186): the keys are listed
    first, then each key the roster does not have is deleted. *)
Definition _onCollaboratorsChanged (w : World) : World :=
  match collaborators (modelDB w) with
  | None => w
  | Some collaborators =>
      let keys := (map_to_list (selections (editor w))).*1 in
      fold_left
        (fun w key =>
           if negb (has collaborators key)
           then with_editor
                  (editor_with_selections (delete key (selections (editor w)))
                     (editor w)) w
           else w)
        keys w
  end.

(** The continuation of [modelDB.connected] (widget.ts 75-93). *)
Definition onConnected (w : World) : World :=
  match collaborators (modelDB w) with
  | None => w
  | Some collaborators =>
      let localCollaborator := localCollaborator collaborators in
      let w1 := with_editor
                  (editor_with_uuid (ICollaborator.sessionId localCollaborator)
                     (editor w)) w in
      let w2 := with_editor
                  (editor_with_selectionStyle
                     (ISelectionStyle.mk
                        (ISelectionStyle.className defaultSelectionStyle)
                        (ISelectionStyle.displayName defaultSelectionStyle)
                        (ICollaborator.color localCollaborator))
                     (editor w1)) w1 in
      let w3 := with_collaboratorsChanged_connected true w2 in
      _onCollaboratorsChanged w3
  end.

(** The options of the constructor: the context's model and its model
    database, and the editor the factory returns. *)
Record IOptions : Type := mkOptions {
  context_model : DocumentModel;
  context_modelDB : ModelDB;
  factory : Editor
}.

(** [constructor] (widget.ts 57-95): a fresh widget (empty title class,
    nothing connected), the first seed of the buffer, and the two
    continuations left waiting. *)
Definition constructor (fuel : nat) (options : IOptions) : Outcome World :=
  let w0 := mkWorld (context_model options) (context_modelDB options)
              (factory options) false EmptyString false false false false false false [] in
  w1 ← value_set_text fuel OfEditor (toString (model w0)) w0;
  let w2 := with_ready_callback true w1 in
  Returned (if isCollaborative (modelDB w2)
            then with_connected_callback true w2
            else w2).

(** Modelled from the spec: [dispose] of the widget, which the sources at
    hand inherit and do not define.  "Disposal (external request)
    transitions to Disposed: all subscriptions are released."  Waiting
    continuations are not cancelled ("it is not guaranteed to interrupt an
    in-flight asynchronous readiness wait"). *)
Definition dispose (w : World) : World :=
  if isDisposed w then w
  else with_collaboratorsChanged_connected false
         (with_contentChanged_connected false
            (with_stateChanged_connected false
               (with_isDisposed true w))).

(** *** The environment *)

(** What can happen to a constructed widget. *)
Inductive Input : Type :=
| ContextReady                     (* context.ready resolves *)
| ModelDBConnected                 (* modelDB.connected resolves *)
| RosterChanged (r : gmap string ICollaborator.t)
                                   (* the roster becomes [r]; collaborators.changed emits *)
| SelectionsSet (key : string) (s : list ITextSelection)
                                   (* a collaborator's selections arrive *)
| SetDirty (b : bool)              (* model.dirty = b *)
| SetReadOnly (b : bool)           (* model.readOnly = b *)
| FromString (s : string)          (* model.fromString(s) *)
| FromJSON (v : JSON.JSONValue num) (* model.fromJSON(v) *)
| Dispose.                         (* widget.dispose() *)

Definition step (fuel : nat) (i : Input) (w : World) : Outcome World :=
  match i with
  | ContextReady =>
      if ready_callback w
      then _onContextReady fuel (with_ready_callback false w)
      else Returned w
  | ModelDBConnected =>
      if connected_callback w
      then Returned (onConnected (with_connected_callback false w))
      else Returned w
  | RosterChanged r =>
      match collaborators (modelDB w) with
      | None => Returned w
      | Some c =>
          let w1 := with_modelDB
                      (mkModelDB (isCollaborative (modelDB w))
                         (Some (mkCollaborators (localCollaborator c) r))) w in
          Returned (if collaboratorsChanged_connected w1
                    then _onCollaboratorsChanged w1
                    else w1)
      end
  | SelectionsSet key s =>
      Returned (with_editor
                  (editor_with_selections (<[key := s]> (selections (editor w)))
                     (editor w)) w)
  | SetDirty b => Returned (set_dirty b w)
  | SetReadOnly b => Returned (set_readOnly b w)
  | FromString s => fromString fuel s w
  | FromJSON v => fromJSON fuel v w
  | Dispose => Returned (dispose w)
  end.

Fixpoint run (fuel : nat) (inputs : list Input) (w : World) : Outcome World :=
  match inputs with
  | [] => Returned w
  | i :: inputs' => w' ← step fuel i w; run fuel inputs' w'
  end.

End Program.

(** ** Closed forms

    What the handlers and the assignment compute, without fuel; the section
    on text buffers below proves that the program computes exactly these
    whenever it has fuel for two nested assignments. *)

(** The editor's own buffer takes [v]. *)
Definition store_own (old v : string) (w : World) : World :=
  push_history old (with_editor (editor_with_model (OwnModel v) (editor w)) w).

(** The effect of the content-changed handler. *)
Definition sync_editor (w : World) : World :=
  match editor_model (editor w) with
  | ContextModel => w
  | OwnModel old =>
      if String.eqb old (value_text (model w)) then w
      else store_own old (value_text (model w))
             (record (Editor_write (value_text (model w))) w)
  end.

(** The effect of [target.value.text = v]. *)
Definition assign_text (notify_unchanged : bool) (target : ModelRef) (v : string)
    (w : World) : World :=
  let w0 := match target with
            | OfEditor => record (Editor_write v) w
            | OfContext => w
            end in
  match target, editor_model (editor w) with
  | OfEditor, OwnModel old =>
      if takes_effect notify_unchanged old v then store_own old v w0 else w0
  | _, em =>
      if takes_effect notify_unchanged (value_text (model w)) v then
        let w1 := record (Emit_contentChanged (_dirty (model w)))
                    (with_model (model_with_text v (model w0)) w0) in
        let w2 := if contentChanged_connected w then sync_editor w1 else w1 in
        let w3 := set_dirty true w2 in
        match em with
        | ContextModel => push_history (value_text (model w)) w3
        | OwnModel _ => w3
        end
      else w0
  end.

(** One turn of the loop of [_onCollaboratorsChanged]. *)
Definition prune_step (c : Collaborators) (w : World) (key : string) : World :=
  if negb (has c key)
  then with_editor
         (editor_with_selections (delete key (selections (editor w))) (editor w)) w
  else w.

(** ** The dirty marker *)

(** The title class as the handlers leave it: with one marker, appended
    after a space, when the model is dirty, and without the marker when it
    is not. *)
Definition marker_ok (w : World) : Prop :=
  if _dirty (model w)
  then exists c, title_className w = c +:+ " " +:+ DIRTY_CLASS /\
                 JSString.includes DIRTY_CLASS c = false
  else JSString.includes DIRTY_CLASS (title_className w) = false.

(** While the readiness continuation is waiting the handlers are not
    connected and the title class has no marker; once they are connected the
    continuation has run and the marker follows the dirty flag. *)
Definition binding_invariant (w : World) : Prop :=
  (stateChanged_connected w = true -> ready_callback w = false /\ marker_ok w) /\
  (ready_callback w = true ->
     stateChanged_connected w = false /\
     JSString.includes DIRTY_CLASS (title_className w) = false).

(** ** Example worlds *)

Module Examples.

Definition style : ISelectionStyle.t := ISelectionStyle.mk EmptyString EmptyString "black".

Definition alice : ICollaborator.t := ICollaborator.mk "A" "alice" "red".

Definition selection : ITextSelection := mkTextSelection (0, 0) (0, 3).

(** A clean, empty document that is not shared. *)
Definition empty_model : DocumentModel := mkDocumentModel EmptyString EmptyString false false.

Definition local_db : ModelDB := mkModelDB false None.

(** A shared document whose roster has the local collaborator only. *)
Definition shared_db : ModelDB :=
  mkModelDB true (Some (mkCollaborators alice {[ "A" := alice ]})).

(** An editor on the model it is given. *)
Definition editor_on_context : Editor := mkEditor ContextModel [] ∅ EmptyString style.

(** An editor with a buffer of its own, with one past edit. *)
Definition editor_on_copy : Editor := mkEditor (OwnModel EmptyString) ["old"] ∅ EmptyString style.

(** A clean widget, nothing connected, on an empty document. *)
Definition clean : World :=
  mkWorld empty_model local_db editor_on_context false EmptyString false true false
    false false false [].

(** The back end has loaded ["hello"] into the model; the editor's copy
    is still empty and readiness has not been handled. *)
Definition loaded : World :=
  mkWorld (mkDocumentModel "hello" EmptyString false false) local_db editor_on_copy
    false EmptyString false true false false false false [].

(** A shared document with selections of two collaborators, one of whom
    has left the roster. *)
Definition shared : World :=
  mkWorld empty_model shared_db
    (mkEditor ContextModel [] {[ "A" := [selection]; "B" := [selection] ]} EmptyString style)
    false EmptyString true false false true true true [].

Definition sample : JSON.JSONValue Z :=
  JSON.JObject
    [("name", JSON.JString "a.txt");
     ("cells", JSON.JArray [JSON.JNumber 1%Z; JSON.JNumber (-20)%Z; JSON.JNull]);
     ("meta", JSON.JObject [("dirty", JSON.JBool false)])].

End Examples.

(** ** More of the program *)

(** The model goes dirty and is saved again: [model.dirty = true], then
    [model.dirty = false]. *)
Definition dirty_cycle (w : World) : World :=
  set_dirty false (set_dirty true w).

(** [n] spaces. *)
Fixpoint spaces (n : nat) : string :=
  match n with
  | O => EmptyString
  | S n' => spaces n' +:+ " "
  end.

(** A control character (code below 32), which a JSON text never holds
    unescaped inside a string. *)
Definition is_control (c : ascii) : bool := (N_of_ascii c <? 32)%N.

Definition is_printable (c : ascii) : bool := negb (is_control c).


(** ** Closed forms of the handlers and of a run *)

Section ClosedForms.

Variable notify_unchanged : bool.
Variable defaultSelectionStyle : ISelectionStyle.t.
Context {num : Type} `{JSON.JSNumber num}.

(** The effect of [_onContextReady]. *)
Definition ready_effect (w : World) : World :=
  if isDisposed w then w
  else with_ready_resolved true
         (with_contentChanged_connected true
            (with_stateChanged_connected true
               (_handleDirtyState
                  (clearHistory
                     (assign_text notify_unchanged OfEditor (toString (model w)) w))))).

(** The effect of one input. *)
Definition next (w : World) (i : Input (num := num)) : World :=
  match i with
  | ContextReady =>
      if ready_callback w then ready_effect (with_ready_callback false w) else w
  | ModelDBConnected =>
      if connected_callback w
      then onConnected defaultSelectionStyle (with_connected_callback false w)
      else w
  | RosterChanged r =>
      match collaborators (modelDB w) with
      | None => w
      | Some c =>
          let w1 := with_modelDB
                      (mkModelDB (isCollaborative (modelDB w))
                         (Some (mkCollaborators (localCollaborator c) r))) w in
          if collaboratorsChanged_connected w1 then _onCollaboratorsChanged w1 else w1
      end
  | SelectionsSet key s =>
      with_editor
        (editor_with_selections (<[key := s]> (selections (editor w))) (editor w)) w
  | SetDirty b => set_dirty b w
  | SetReadOnly b => set_readOnly b w
  | FromString s => assign_text notify_unchanged OfContext s w
  | FromJSON v => assign_text notify_unchanged OfContext (JSON.stringify v) w
  | Dispose => dispose w
  end.

(** The world a widget is constructed in (before the first seed). *)
Definition fresh (options : IOptions) : World :=
  mkWorld (context_model options) (context_modelDB options) (factory options)
    false EmptyString false false false false false false [].

(** The effect of the constructor. *)
Definition constructed (options : IOptions) : World :=
  let w1 := assign_text notify_unchanged OfEditor
              (toString (context_model options)) (fresh options) in
  let w2 := with_ready_callback true w1 in
  if isCollaborative (modelDB w2) then with_connected_callback true w2 else w2.

End ClosedForms.

(** What the invariants of a run speak of: the editor's model, the text,
    the title class, the life-cycle flags and the number of buffer writes. *)
Definition outside (w : World) :=
  (editor_model (editor w), value_text (model w), title_className w,
   isDisposed w, ready_resolved w, stateChanged_connected w,
   contentChanged_connected w, ready_callback w, buffer_writes w).


(** ** The file editor: label and mime type follow the path *)

Module FileEditor.

(** [s.split(c)] for a separator [c] of one character: the pieces of [s]
    between the occurrences of [c], in order. *)
Fixpoint split (c : ascii) (s : string) : list string :=
  match s with
  | EmptyString => [EmptyString]
  | String x s' =>
      if Ascii.eqb x c then EmptyString :: split c s'
      else match split c s' with
           | piece :: pieces => String x piece :: pieces
           | [] => [String x EmptyString]
           end
  end.

(** The value of [a.pop()]: the last element, [undefined] on an empty
    array. *)
Definition pop (a : list string) : option string := last a.

(** What [_onPathChanged] writes: [this.editor.model.mimeType] and
    [this.title.label]. *)
Record t : Type := mk {
  mimeType : string;
  label : string
}.

Section Services.

(** [PathExt.basename] and the mime type service of the editor are not
    part of the sources at hand: the handler is stated for every such pair
    of functions. *)
Variable basename : string -> string.
Variable getMimeTypeByFilePath : string -> string.

(** [_onPathChanged] (widget.ts), with [path] the value of
    [this._context.path].  [None] stands for [PathExt.basename] called on
    [undefined], which the non-null assertion after [pop()] rules out for
    the type checker only. *)
Definition _onPathChanged (path : string) (fe : t) : option t :=
  let fe1 := mk (getMimeTypeByFilePath path) (label fe) in
  segment ← pop (split ":" path);
  Some (mk (mimeType fe1) (basename segment)).

End Services.

End FileEditor.

(** ** Widget factories *)

(** An array is an object: a value of array type is the address of the
    array in the heap, and two values are the same array exactly when the
    addresses are equal. *)
Definition Heap : Type := list (list string).

Module JSArray.

(** The array literal [[]]: a new array without elements. *)
Definition empty (h : Heap) : nat * Heap := (length h, h ++ [[]]).

(** [a.slice()]: a new array with the elements of the array at [a]
    ([None] where [a] is the address of no array). *)
Definition slice (a : nat) (h : Heap) : option (nat * Heap) :=
  elements ← h !! a; Some (length h, h ++ [elements]).

End JSArray.

(** [DocumentRegistry.IWidgetFactoryOptions], as [ABCWidgetFactory] reads
    it; [None] is a property left [undefined]. *)
Module IWidgetFactoryOptions.
Record t : Type := mk {
  name : string;
  fileTypes : nat;
  defaultFor : option nat;
  readOnly : option bool;
  modelName : option string;
  preferKernel : option bool;
  canStartKernel : option bool
}.
End IWidgetFactoryOptions.

(** [s || d] for an optional string: [undefined] and the empty string are
    falsy. *)
Definition string_or (s : option string) (d : string) : string :=
  match s with
  | Some (String c s') => String c s'
  | _ => d
  end.

Module ABCWidgetFactory.

Section Widgets.

(** The widgets [T] the factory makes, the contexts [U] it makes them for
    and the abstract method [createNewWidget] of the subclass. *)
Variables T U : Type.
Variable createNewWidget : U -> T.

(** The private fields; [_widgetCreated] holds what the signal of that
    name emitted so far, in order. *)
Record t : Type := mk {
  _isDisposed : bool;
  _name : string;
  _readOnly : bool;
  _canStartKernel : bool;
  _preferKernel : bool;
  _modelName : string;
  _fileTypes : nat;
  _defaultFor : nat;
  _widgetCreated : list T
}.

Definition constructor (options : IWidgetFactoryOptions.t) (h : Heap)
  : option (t * Heap) :=
  let name := IWidgetFactoryOptions.name options in
  let readOnly :=
    match IWidgetFactoryOptions.readOnly options with
    | None => false
    | Some b => b
    end in
  '(defaultFor, h1) ←
    match IWidgetFactoryOptions.defaultFor options with
    | Some a => JSArray.slice a h
    | None => Some (JSArray.empty h)
    end;
  '(fileTypes, h2) ← JSArray.slice (IWidgetFactoryOptions.fileTypes options) h1;
  let modelName := string_or (IWidgetFactoryOptions.modelName options) "text" in
  let preferKernel := default false (IWidgetFactoryOptions.preferKernel options) in
  let canStartKernel := default false (IWidgetFactoryOptions.canStartKernel options) in
  Some (mk false name readOnly canStartKernel preferKernel modelName
          fileTypes defaultFor [], h2).

Definition isDisposed (f : t) : bool := _isDisposed f.

Definition dispose (f : t) : t :=
  mk true (_name f) (_readOnly f) (_canStartKernel f) (_preferKernel f)
    (_modelName f) (_fileTypes f) (_defaultFor f) (_widgetCreated f).

Definition readOnly (f : t) : bool := _readOnly f.

Definition name (f : t) : string := _name f.

Definition fileTypes (f : t) (h : Heap) : option (nat * Heap) :=
  JSArray.slice (_fileTypes f) h.

Definition modelName (f : t) : string := _modelName f.

Definition defaultFor (f : t) (h : Heap) : option (nat * Heap) :=
  JSArray.slice (_defaultFor f) h.

Definition preferKernel (f : t) : bool := _preferKernel f.

Definition canStartKernel (f : t) : bool := _canStartKernel f.

(** [createNew]: the widget returned and the factory after the emission. *)
Definition createNew (context : U) (f : t) : T * t :=
  let widget := createNewWidget context in
  (widget,
   mk (_isDisposed f) (_name f) (_readOnly f) (_canStartKernel f) (_preferKernel f)
     (_modelName f) (_fileTypes f) (_defaultFor f) (_widgetCreated f ++ [widget])).

(** *** The code that uses a factory *)

(** What the code around a factory can do with it: call its methods and
    change, in place, the arrays it holds.  [Change k elements] makes
    [elements] the content of the [k]-th array the caller holds (any of
    [push], [pop], [splice], an index assignment ...). *)
Inductive Call : Type :=
| Get_fileTypes
| Get_defaultFor
| Change (k : nat) (elements : list string)
| CreateNew (context : U)
| Dispose.

(** A factory in use: the heap, the arrays the caller holds (those it
    had, then those the getters returned) and the widgets [createNew]
    returned to it. *)
Record Session : Type := mkSession {
  factory : t;
  heap : Heap;
  held : list nat;
  widgets : list T
}.

Definition call (c : Call) (s : Session) : option Session :=
  match c with
  | Get_fileTypes =>
      '(a, h) ← fileTypes (factory s) (heap s);
      Some (mkSession (factory s) h (held s ++ [a]) (widgets s))
  | Get_defaultFor =>
      '(a, h) ← defaultFor (factory s) (heap s);
      Some (mkSession (factory s) h (held s ++ [a]) (widgets s))
  | Change k elements =>
      match held s !! k with
      | Some a => Some (mkSession (factory s) (<[a := elements]> (heap s))
                          (held s) (widgets s))
      | None => Some s
      end
  | CreateNew context =>
      let '(widget, f) := createNew context (factory s) in
      Some (mkSession f (heap s) (held s) (widgets s ++ [widget]))
  | Dispose =>
      Some (mkSession (dispose (factory s)) (heap s) (held s) (widgets s))
  end.

Fixpoint calls (cs : list Call) (s : Session) : option Session :=
  match cs with
  | [] => Some s
  | c :: cs' => s' ← call c s; calls cs' s'
  end.

End Widgets.

Arguments mk {T}.
Arguments mkSession {T}.
Arguments constructor {T}.
Arguments isDisposed {T}.
Arguments dispose {T}.
Arguments readOnly {T}.
Arguments name {T}.
Arguments fileTypes {T}.
Arguments modelName {T}.
Arguments defaultFor {T}.
Arguments preferKernel {T}.
Arguments canStartKernel {T}.
Arguments createNew {T U}.
Arguments Get_fileTypes {U}.
Arguments Get_defaultFor {U}.
Arguments Change {U}.
Arguments CreateNew {U}.
Arguments Dispose {U}.
Arguments call {T U}.
Arguments calls {T U}.
Arguments factory {T}.
Arguments heap {T}.
Arguments held {T}.
Arguments widgets {T}.
Arguments _isDisposed {T}.
Arguments _name {T}.
Arguments _readOnly {T}.
Arguments _canStartKernel {T}.
Arguments _preferKernel {T}.
Arguments _modelName {T}.
Arguments _fileTypes {T}.
Arguments _defaultFor {T}.
Arguments _widgetCreated {T}.

End ABCWidgetFactory.

(** [DocumentRegistry.IFileType], as [MimeDocumentFactory] reads it. *)
Module IFileType.
Record t : Type := mk {
  mimeTypes : list string;
  iconClass : string;
  iconLabel : string
}.
End IFileType.

(** ['string' | 'json'] *)
Inductive DataType : Type :=
| DataString
| DataJSON.

(** What [MimeDocumentFactory] sets on the [MimeDocument] it makes. *)
Module MimeDocument.

Section Numbers.

Variable number : Type.

Record IOptions : Type := mkOptions {
  mimeType : string;
  renderTimeout : number;
  dataType : option DataType
}.

(** [timeout] is the timeout the widget gives its activity monitor. *)
Record t : Type := mk {
  _mimeType : string;
  _dataType : DataType;
  timeout : number;
  title_iconClass : string;
  title_iconLabel : string
}.

Definition constructor (options : IOptions) : t :=
  mk (mimeType options) (default DataString (dataType options))
    (renderTimeout options) EmptyString EmptyString.

End Numbers.

Arguments mkOptions {number}.
Arguments mimeType {number}.
Arguments renderTimeout {number}.
Arguments dataType {number}.
Arguments mk {number}.
Arguments _mimeType {number}.
Arguments _dataType {number}.
Arguments timeout {number}.
Arguments title_iconClass {number}.
Arguments title_iconLabel {number}.
Arguments constructor {number}.

End MimeDocument.

Module MimeDocumentFactory.

Section Numbers.

(** The numbers of the platform, with [ToBoolean] ([false] at zero and at
    [NaN]) and the number [1000]. *)
Variable number : Type.
Variable truthy : number -> bool.
Variable thousand : number.

(** The contexts widgets are made for. *)
Variable U : Type.

(** [MimeDocumentFactory.IOptions]: the options of every widget factory
    and those of this one. *)
Record IOptions : Type := mkOptions {
  registry : IWidgetFactoryOptions.t;
  primaryFileType : IFileType.t;
  renderTimeout : option number;
  dataType : option DataType
}.

(** [Private.createRegistryOptions]: [{ ...options, readOnly: true }] *)
Definition createRegistryOptions (options : IOptions) : IWidgetFactoryOptions.t :=
  let o := registry options in
  IWidgetFactoryOptions.mk
    (IWidgetFactoryOptions.name o)
    (IWidgetFactoryOptions.fileTypes o)
    (IWidgetFactoryOptions.defaultFor o)
    (Some true)
    (IWidgetFactoryOptions.modelName o)
    (IWidgetFactoryOptions.preferKernel o)
    (IWidgetFactoryOptions.canStartKernel o).

(** [n || d] for an optional number. *)
Definition number_or (n : option number) (d : number) : number :=
  match n with
  | Some x => if truthy x then x else d
  | None => d
  end.

(** The fields of the superclass and those of this class. *)
Record t : Type := mk {
  super : ABCWidgetFactory.t (MimeDocument.t number);
  _renderTimeout : number;
  _dataType : DataType;
  _fileType : IFileType.t
}.

Definition constructor (options : IOptions) (h : Heap) : option (t * Heap) :=
  '(s, h') ← ABCWidgetFactory.constructor (createRegistryOptions options) h;
  Some (mk s (number_or (renderTimeout options) thousand)
          (default DataString (dataType options))
          (primaryFileType options), h').

Definition createNewWidget (f : t) (context : U) : MimeDocument.t number :=
  let ft := _fileType f in
  let mimeType :=
    match IFileType.mimeTypes ft with
    | first :: _ => first
    | [] => "text/plain"
    end in
  let widget :=
    MimeDocument.constructor
      (MimeDocument.mkOptions mimeType (_renderTimeout f) (Some (_dataType f))) in
  MimeDocument.mk (MimeDocument._mimeType widget) (MimeDocument._dataType widget)
    (MimeDocument.timeout widget) (IFileType.iconClass ft) (IFileType.iconLabel ft).

(** [createNew], inherited: [createNewWidget] is the method above. *)
Definition createNew (context : U) (f : t) : MimeDocument.t number * t :=
  let '(widget, s) := ABCWidgetFactory.createNew (createNewWidget f) context (super f) in
  (widget, mk s (_renderTimeout f) (_dataType f) (_fileType f)).

End Numbers.

Arguments mkOptions {number}.
Arguments registry {number}.
Arguments primaryFileType {number}.
Arguments renderTimeout {number}.
Arguments dataType {number}.
Arguments createRegistryOptions {number}.
Arguments number_or {number}.
Arguments constructor {number}.
Arguments mk {number}.
Arguments super {number}.
Arguments _renderTimeout {number}.
Arguments _dataType {number}.
Arguments _fileType {number}.
Arguments createNewWidget {number U}.
Arguments createNew {number U}.

End MimeDocumentFactory.

(** *** What the properties of a factory in use speak of *)

Section FactoryInvariant.

Variables T U : Type.
Variable createNewWidget : U -> T.

(** The factory's two arrays are at [ft] and [df], hold [lft] and [ldf],
    and the caller holds neither. *)
Definition private_arrays (ft df : nat) (lft ldf : list string)
    (s : ABCWidgetFactory.Session T) : Prop :=
  ABCWidgetFactory._fileTypes (ABCWidgetFactory.factory s) = ft /\
  ABCWidgetFactory._defaultFor (ABCWidgetFactory.factory s) = df /\
  ABCWidgetFactory.heap s !! ft = Some lft /\
  ABCWidgetFactory.heap s !! df = Some ldf /\
  Forall (fun a => a <> ft /\ a <> df) (ABCWidgetFactory.held s).

(** The widgets a sequence of calls asks for, in order. *)
Definition requested (cs : list (ABCWidgetFactory.Call U)) : list T :=
  omap (fun c =>
          match c with
          | ABCWidgetFactory.CreateNew context => Some (createNewWidget context)
          | _ => None
          end) cs.

End FactoryInvariant.

Arguments private_arrays {T}.
Arguments requested {T U}.

(** ** More examples *)

Module FactoryExamples.

(** A widget bound to a clean model, with one class on its title. *)
Definition bound : World :=
  mkWorld Examples.empty_model Examples.local_db Examples.editor_on_context
    false "jp-Document" true false false true true false [].

(** A buffer that holds one space. *)
Definition blank : DocumentModel := mkDocumentModel " " EmptyString false false.


(** The options of a widget on a document that is not shared. *)
Definition local_options : IOptions :=
  mkOptions Examples.empty_model Examples.local_db Examples.editor_on_context.

(** A heap of two arrays, the options of a factory that point to them and
    calls that change both, and a copy a getter returned. *)
Definition arrays : Heap := [["txt"; "md"]; ["txt"]].

Definition factory_options : IWidgetFactoryOptions.t :=
  IWidgetFactoryOptions.mk "Editor" 0 (Some 1) (Some false) None None None.

Definition changes : list (ABCWidgetFactory.Call string) :=
  [ABCWidgetFactory.Change 0 []; ABCWidgetFactory.Get_fileTypes;
   ABCWidgetFactory.Change 2 ["exe"]; ABCWidgetFactory.Dispose;
   ABCWidgetFactory.CreateNew "a.txt"; ABCWidgetFactory.CreateNew "b.txt"].

(** A widget: the path of its context. *)
Definition widget_of (path : string) : string := path.

(** Integers as numbers: zero is the falsy one. *)
Definition nonzero (z : Z) : bool := negb (Z.eqb z 0).

Definition markdown : IFileType.t :=
  IFileType.mk ["text/markdown"] EmptyString EmptyString.

Definition mime_options : MimeDocumentFactory.IOptions Z :=
  MimeDocumentFactory.mkOptions factory_options markdown (Some 0%Z) None.

End FactoryExamples.
(** Modelled from the spec: the text setter of the observable string behind
    [model.value] (package [observables]), which [fromString] assigns to and
    which is not part of the sources at hand.  "[fromString(value)] replaces
    buffer content; triggers a content-changed notification; idempotent if
    value is unchanged is NOT guaranteed (always notifies)". *)
Definition always_notifies : bool := true.

(** * Properties *)

Ltac destruct_world w :=
  let m := fresh "m" in
  let e := fresh "e" in
  destruct w as [m ? e ? ? ? ? ? ? ? ? ?]; destruct m; destruct e.

(** Unfolds one assignment to a text buffer and everything it triggers. *)
Ltac unfold_set_text :=
  unfold fromJSON, fromString, _onContentChanged, triggerContentChange;
  cbn [value_set_text];
  unfold triggerContentChange_with, _onContentChanged_with, takes_effect,
    set_dirty, triggerStateChange, _onModelStateChanged, _handleDirtyState,
    push_history, editor_text, toString, mbind, Outcome_bind.

Ltac case_bools :=
  repeat match goal with
         | |- context [String.eqb ?a ?b] =>
             destruct (String.eqb_spec a b); try subst; cbn in *; try congruence
         | |- context [if ?b then _ else _] =>
             is_var b; destruct b; cbn in *; try congruence
         | |- context [match ?b with ContextModel => _ | OwnModel _ => _ end] =>
             is_var b; destruct b; cbn in *; try congruence
         end.

(** ** Facts about class attributes *)

Module JSStringFacts.
Import JSString.

Lemma append_nil (s : string) : EmptyString +:+ s = s.
Proof. reflexivity. Qed.

Lemma append_cons (c : ascii) (a b : string) :
  String c a +:+ b = String c (a +:+ b).
Proof. reflexivity. Qed.

Lemma startsWith_refl (p : string) : startsWith p p = true.
Proof. induction p as [|x p IH]; [done|]. cbn. by rewrite Ascii.eqb_refl. Qed.

Lemma startsWith_app (p s : string) : startsWith p (p +:+ s) = true.
Proof. induction p as [|x p IH]; [done|]. simpl. by rewrite Ascii.eqb_refl. Qed.

Lemma drop_length_app (p s : string) : drop (String.length p) (p +:+ s) = s.
Proof. induction p as [|x p IH]; [by destruct s|]. cbn. apply IH. Qed.

Lemma includes_cons (p : string) (c : ascii) (s : string) :
  includes p s = true -> includes p (String c s) = true.
Proof. intros Hs. cbn [includes]. rewrite Hs. by destruct (startsWith p _). Qed.

Lemma includes_startsWith (p s : string) :
  startsWith p s = true -> includes p s = true.
Proof. intros Hs. destruct s; cbn [includes]; by rewrite Hs. Qed.

(** A pattern without [c] that starts [a ++ c :: b] starts [a]. *)
Lemma startsWith_before (c : ascii) (p a b : string) :
  lacks c p = true ->
  startsWith p (a +:+ String c b) = true -> startsWith p a = true.
Proof.
  revert a. induction p as [|x p IH]; intros a Hl Hs; [by destruct a|].
  cbn in Hl. apply andb_prop in Hl as [Hx Hp].
  destruct a as [|y a]; rewrite ?append_nil, ?append_cons in Hs; cbn in *.
  - destruct (Ascii.eqb x c); cbn in *; done.
  - destruct (Ascii.eqb x y); [by apply IH|done].
Qed.

Lemma replace_first_absent (p s : string) :
  includes p s = false -> replace_first p s = s.
Proof.
  induction s as [|y s IH]; cbn [includes replace_first]; intros Hi.
  - by destruct (startsWith p EmptyString).
  - destruct (startsWith p (String y s)); [done|]. by rewrite IH.
Qed.

(** Removing the pattern appended after a separator gives back what was
    there before, with the separator. *)
Lemma replace_first_appended (c : ascii) (p s : string) :
  lacks c p = true -> p <> EmptyString -> includes p s = false ->
  replace_first p (s +:+ String c p) = s +:+ String c EmptyString.
Proof.
  intros Hl Hp. induction s as [|y s IH]; intros Hi.
  - rewrite !append_nil. cbn [replace_first].
    assert (startsWith p (String c p) = false) as ->.
    { destruct p as [|x p]; [done|]. cbn in *.
      apply andb_prop in Hl as [Hx _]. by destruct (Ascii.eqb x c); cbn in *. }
    f_equal. destruct p as [|x p]; [done|].
    cbn [replace_first]. rewrite startsWith_refl.
    pose proof (drop_length_app (String x p) EmptyString) as Hd.
    replace (String x p +:+ EmptyString) with (String x p) in Hd; [done|].
    clear. induction (String x p) as [|z q IHq]; [done|].
    rewrite append_cons. by rewrite <- IHq.
  - cbn [includes] in Hi.
    destruct (startsWith p (String y s)) eqn:Hs; [done|].
    rewrite !append_cons. cbn [replace_first].
    destruct (startsWith p (String y (s +:+ String c p))) eqn:Hs'.
    + apply (startsWith_before c p (String y s) p) in Hs'; [congruence|done].
    + by rewrite IH.
Qed.

Lemma includes_separator (c : ascii) (p s : string) :
  lacks c p = true -> p <> EmptyString -> includes p s = false ->
  includes p (s +:+ String c EmptyString) = false.
Proof.
  intros Hl Hp. induction s as [|y s IH]; intros Hi.
  - rewrite append_nil. destruct p as [|x p]; [done|]. cbn in *.
    apply andb_prop in Hl as [Hx _]. by destruct (Ascii.eqb x c); cbn in *.
  - cbn [includes] in Hi.
    destruct (startsWith p (String y s)) eqn:Hs; [done|].
    rewrite append_cons. cbn [includes].
    destruct (startsWith p (String y (s +:+ String c EmptyString))) eqn:Hs'.
    + apply (startsWith_before c p (String y s) EmptyString) in Hs'; [congruence|done].
    + by apply IH.
Qed.

(** *** Tokens *)

Lemma tokens_nonempty (c : ascii) (s : string) :
  is_class_space c = false -> tokens (String c s) <> [].
Proof.
  intros Hc. cbn [tokens]. rewrite Hc.
  destruct s as [|c' s]; [done|].
  destruct (is_class_space c'); [done|]. by destruct (tokens (String c' s)).
Qed.

(** The first token of a text that starts with a token character is a
    prefix of the text, and every token occurs in the text. *)
Lemma tokens_occur (s : string) :
  (forall t, In t (tokens s) -> includes t s = true) /\
  (forall c s' t ts, s = String c s' -> is_class_space c = false ->
     tokens s = t :: ts -> startsWith t s = true).
Proof.
  induction s as [|c s [IH1 IH2]]; [split; [done|by intros]|].
  split.
  - intros t. cbn [tokens].
    destruct (is_class_space c) eqn:Hc.
    { intros Ht. by apply includes_cons, IH1. }
    destruct s as [|c' s'].
    { intros [<-|[]]. apply includes_startsWith, startsWith_refl. }
    destruct (is_class_space c') eqn:Hc'.
    { intros [<-|Ht].
      - apply includes_startsWith. cbn. by rewrite Ascii.eqb_refl.
      - by apply includes_cons, IH1. }
    destruct (tokens (String c' s')) as [|t0 ts] eqn:Htok.
    { intros [<-|[]]. apply includes_startsWith. cbn. by rewrite Ascii.eqb_refl. }
    intros [<-|Ht].
    + apply includes_startsWith. cbn [startsWith]. rewrite Ascii.eqb_refl.
      by apply (IH2 c' s' t0 ts).
    + apply includes_cons, IH1. by right.
  - intros c0 s0 t ts [= <- <-] Hc. cbn [tokens]. rewrite Hc.
    destruct s as [|c' s'].
    { intros [= <- <-]. apply startsWith_refl. }
    destruct (is_class_space c') eqn:Hc'.
    { intros [= <- <-]. cbn. by rewrite Ascii.eqb_refl. }
    destruct (tokens (String c' s')) as [|t0 ts0] eqn:Htok.
    { intros [= <- <-]. cbn. by rewrite Ascii.eqb_refl. }
    intros [= <- <-]. cbn [startsWith]. rewrite Ascii.eqb_refl.
    by apply (IH2 c' s' t0 ts0).
Qed.

Lemma has_token_includes (p s : string) :
  includes p s = false -> has_token p s = false.
Proof.
  intros Hi. unfold has_token.
  destruct (existsb (String.eqb p) (tokens s)) eqn:He; [|done].
  apply existsb_exists in He as (t & Ht & Heq).
  apply String.eqb_eq in Heq as <-.
  apply (proj1 (tokens_occur s)) in Ht. congruence.
Qed.

(** The tokens on the two sides of a separator. *)
Lemma tokens_app (c : ascii) (a b : string) :
  is_class_space c = true ->
  tokens (a +:+ String c b) = tokens a ++ tokens b.
Proof.
  intros Hc. induction a as [|x a IH].
  - rewrite append_nil. cbn [tokens]. by rewrite Hc.
  - rewrite append_cons. cbn [tokens]. destruct (is_class_space x) eqn:Hx; [done|].
    destruct a as [|y a'].
    + rewrite append_nil. rewrite Hc. cbn [tokens]. by rewrite Hc.
    + rewrite append_cons in *. destruct (is_class_space y) eqn:Hy.
      * by rewrite IH.
      * rewrite IH. pose proof (tokens_nonempty y a' Hy) as Hne.
        by destruct (tokens (String y a')).
Qed.

Lemma has_token_appended (p s : string) :
  tokens p = [p] -> has_token p (s +:+ String " " p) = true.
Proof.
  intros Hp. unfold has_token. rewrite tokens_app by done.
  rewrite existsb_app, Hp. cbn. rewrite String.eqb_refl. by rewrite orb_true_r.
Qed.

End JSStringFacts.

(** ** Facts about JSON *)

Module JSONFacts.
Import JSON.
Import JSStringFacts.

Lemma append_assoc (a b c : string) : (a +:+ b) +:+ c = a +:+ (b +:+ c).
Proof.
  induction a as [|x a IH]; [done|]. rewrite !append_cons. by rewrite IH.
Qed.

Lemma all_chars_append (P : ascii -> bool) (a b : string) :
  all_chars P (a +:+ b) = all_chars P a && all_chars P b.
Proof.
  induction a as [|x a IH]; [done|]. rewrite append_cons. cbn.
  rewrite IH. by rewrite andb_assoc.
Qed.

(** *** The integer instance *)

Lemma uint_chars (d : Decimal.uint) :
  all_chars is_num_char (NilEmpty.string_of_uint d) = true.
Proof. induction d; cbn; done. Qed.

Lemma uint_start (d : Decimal.uint) :
  d <> Decimal.Nil ->
  starts_with_char is_num_start (NilEmpty.string_of_uint d) = true.
Proof. destruct d; cbn; done. Qed.

Lemma Z_to_string_chars (z : Z) : all_chars is_num_char (Z_to_string z) = true.
Proof.
  unfold Z_to_string. destruct z as [|p|p]; cbn; [done| |].
  - pose proof (DecimalPos.Unsigned.to_uint_nonnil p) as Hn.
    unfold NilZero.string_of_uint. destruct (Pos.to_uint p) eqn:E; try done;
      rewrite <- E; apply uint_chars.
  - pose proof (DecimalPos.Unsigned.to_uint_nonnil p) as Hn.
    unfold NilZero.string_of_uint. destruct (Pos.to_uint p) eqn:E; try done;
      rewrite <- E; apply uint_chars.
Qed.

Lemma Z_to_string_start (z : Z) :
  starts_with_char is_num_start (Z_to_string z) = true.
Proof.
  unfold Z_to_string. destruct z as [|p|p]; cbn; [done| |done].
  pose proof (DecimalPos.Unsigned.to_uint_nonnil p) as Hn.
  unfold NilZero.string_of_uint. by destruct (Pos.to_uint p).
Qed.

Lemma Z_of_to_string (z : Z) : Z_of_string (Z_to_string z) = Some z.
Proof.
  unfold Z_of_string, Z_to_string.
  rewrite NilZero.isi.
  - rewrite DecimalZ.of_to. by rewrite String.eqb_refl.
  - destruct z as [|p|p]; cbn; try done.
    intros [= Hp]. by apply (DecimalPos.Unsigned.to_uint_nonnil p).
  - destruct z as [|p|p]; cbn; try done.
    intros [= Hp]. by apply (DecimalPos.Unsigned.to_uint_nonnil p).
Qed.

(** *** Reading back what [quote] wrote *)

Lemma parse_chars_quote_char (c : ascii) (s : string) :
  parse_chars (quote_char c +:+ s) =
  match parse_chars s with
  | Some (str, rest) => Some (String c str, rest)
  | None => None
  end.
Proof. destruct c as [[] [] [] [] [] [] [] []]; reflexivity. Qed.

Lemma parse_chars_quote_chars (s rest : string) :
  parse_chars (quote_chars s +:+ String "034"%char rest) = Some (s, rest).
Proof.
  induction s as [|c s IH]; [done|].
  cbn [quote_chars]. by rewrite append_assoc, parse_chars_quote_char, IH.
Qed.

Lemma quote_append (s rest : string) :
  quote s +:+ rest = String "034"%char (quote_chars s +:+ String "034"%char rest).
Proof. unfold quote. rewrite append_cons. f_equal. by rewrite append_assoc. Qed.

(** *** Reading back a number *)

Lemma span_num_append (a rest : string) :
  all_chars is_num_char a = true ->
  starts_with_char is_num_char rest = false ->
  span_num (a +:+ rest) = (a, rest).
Proof.
  intros Ha Hr. induction a as [|c a IH].
  - rewrite append_nil. destruct rest as [|c r]; [done|]. cbn in *. by rewrite Hr.
  - cbn in Ha. apply andb_prop in Ha as [Hc Ha].
    rewrite append_cons. cbn [span_num]. rewrite Hc. by rewrite IH.
Qed.

Lemma num_start_value_start (c : ascii) :
  is_num_start c = true -> is_value_start c = true.
Proof. intros Hc. unfold is_value_start. by rewrite Hc. Qed.

Lemma value_start_not_ws (c : ascii) (s : string) :
  is_value_start c = true -> skip_ws (String c s) = String c s.
Proof. destruct c as [[] [] [] [] [] [] [] []]; by intros. Qed.

Lemma value_start_not_bracket (c : ascii) :
  is_value_start c = true -> Ascii.eqb c "]" = false.
Proof. destruct c as [[] [] [] [] [] [] [] []]; by intros. Qed.

Lemma value_start_not_brace (c : ascii) :
  is_value_start c = true -> Ascii.eqb c "}" = false.
Proof. destruct c as [[] [] [] [] [] [] [] []]; by intros. Qed.

Section RoundTrip.
Context {num : Type} `{JSNumber num}.

Lemma parse_value_number (fuel : nat) (c : ascii) (s : string) :
  is_num_start c = true ->
  parse_value fuel (String c s) =
  match fuel with
  | O => PFuel
  | S _ =>
      let '(lexeme, rest) := span_num (String c s) in
      match num_of_string lexeme with
      | Some n => POk (JNumber n) rest
      | None => PErr
      end
  end.
Proof.
  destruct fuel; [done|].
  destruct c as [[] [] [] [] [] [] [] []]; intros Hc; try discriminate Hc;
    reflexivity.
Qed.

(** Induction on a value, with the hypothesis for every element of an
    array and every member of an object. *)
Lemma JSONValue_induction (P : JSONValue num -> Prop) :
  P JNull ->
  (forall b, P (JBool b)) ->
  (forall n, P (JNumber n)) ->
  (forall s, P (JString s)) ->
  (forall l, Forall P l -> P (JArray l)) ->
  (forall m, Forall (fun kx => P (snd kx)) m -> P (JObject m)) ->
  forall v, P v.
Proof.
  intros Hnull Hbool Hnum Hstr Harr Hobj.
  fix IH 1. intros [|b|n|s|l|m].
  - exact Hnull.
  - apply Hbool.
  - apply Hnum.
  - apply Hstr.
  - apply Harr. induction l as [|x l IHl]; constructor; [apply IH|exact IHl].
  - apply Hobj. induction m as [|[k x] m IHm]; constructor; [apply IH|exact IHm].
Qed.

Lemma stringify_start (v : JSONValue num) :
  exists c s, stringify v = String c s /\ is_value_start c = true.
Proof.
  destruct v as [|[]|n|s|l|m]; cbn [stringify]; try by eexists _, _.
  pose proof (num_to_string_start n) as Hs.
  destruct (num_to_string n) as [|c s]; [done|].
  exists c, s. split; [done|]. by apply num_start_value_start.
Qed.

Lemma size_positive (v : JSONValue num) : 0 < size v.
Proof. destruct v; cbn; lia. Qed.

Lemma parse_elements_unfold (fuel : nat) (s : string) :
  parse_elements (S fuel) s =
  match parse_value fuel s with
  | POk v rest =>
      match skip_ws rest with
      | String "]"%char rest' => POk [v] rest'
      | String ","%char rest' =>
          match parse_elements fuel (skip_ws rest') with
          | POk l rest'' => POk (v :: l) rest''
          | PErr => PErr
          | PFuel => PFuel
          end
      | _ => PErr
      end
  | PErr => PErr
  | PFuel => PFuel
  end.
Proof. reflexivity. Qed.

Lemma parse_members_unfold (fuel : nat) (s' : string) :
  parse_members (S fuel) (String "034"%char s') =
  match parse_chars s' with
  | Some (k, rest) =>
      match skip_ws rest with
      | String ":"%char rest1 =>
          match parse_value fuel (skip_ws rest1) with
          | POk v rest2 =>
              match skip_ws rest2 with
              | String "}"%char rest' => POk [(k, v)] rest'
              | String ","%char rest' =>
                  match parse_members fuel (skip_ws rest') with
                  | POk m rest'' => POk ((k, v) :: m) rest''
                  | PErr => PErr
                  | PFuel => PFuel
                  end
              | _ => PErr
              end
          | PErr => PErr
          | PFuel => PFuel
          end
      | _ => PErr
      end
  | None => PErr
  end.
Proof. reflexivity. Qed.

Lemma parse_value_string (fuel : nat) (s' : string) :
  parse_value (S fuel) (String "034"%char s') =
  match parse_chars s' with
  | Some (str, rest) => POk (JString str) rest
  | None => PErr
  end.
Proof. reflexivity. Qed.

Lemma parse_value_array (fuel : nat) (s' : string) :
  parse_value (S fuel) (String "[" s') =
  match skip_ws s' with
  | EmptyString => PErr
  | String c1 rest as s1 =>
      if Ascii.eqb c1 "]" then POk (JArray []) rest
      else
        match parse_elements fuel s1 with
        | POk l rest' => POk (JArray l) rest'
        | PErr => PErr
        | PFuel => PFuel
        end
  end.
Proof. reflexivity. Qed.

Lemma parse_value_object (fuel : nat) (s' : string) :
  parse_value (S fuel) (String "{" s') =
  match skip_ws s' with
  | EmptyString => PErr
  | String c1 rest as s1 =>
      if Ascii.eqb c1 "}" then POk (JObject []) rest
      else
        match parse_members fuel s1 with
        | POk m rest' => POk (JObject (object_of_members m)) rest'
        | PErr => PErr
        | PFuel => PFuel
        end
  end.
Proof. reflexivity. Qed.

Lemma skip_ws_stringify (v : JSONValue num) (rest : string) :
  skip_ws (stringify v +:+ rest) = stringify v +:+ rest.
Proof.
  destruct (stringify_start v) as (c & s & -> & Hc).
  rewrite append_cons. by apply value_start_not_ws.
Qed.

Lemma join_single (close p : string) : join close [p] = p +:+ close.
Proof. reflexivity. Qed.

Lemma join_cons (close p q : string) (parts : list string) :
  join close (p :: q :: parts) = p +:+ "," +:+ join close (q :: parts).
Proof. reflexivity. Qed.

(** A non-empty joined list starts with its first part. *)
Lemma join_head (close p : string) (parts : list string) (rest : string) :
  exists tail, join close (p :: parts) +:+ rest = p +:+ tail.
Proof.
  destruct parts as [|q parts].
  - rewrite join_single, append_assoc. by eexists.
  - rewrite join_cons, append_assoc. by eexists.
Qed.

Lemma parse_elements_join (l : list (JSONValue num)) :
  l <> [] ->
  Forall reads_back l ->
  forallb well_formed l = true ->
  forall fuel rest,
    2 * list_sum (List.map size l) + 1 <= fuel ->
    parse_elements fuel (join "]" (List.map stringify l) +:+ rest) = POk l rest.
Proof.
  induction l as [|x l IH]; [done|]. intros _ Hall Hwf fuel rest Hfuel.
  apply Forall_cons in Hall as [Hx Hall].
  cbn [forallb] in Hwf. apply andb_prop in Hwf as [Hwx Hwf].
  cbn [List.map list_sum fold_right] in Hfuel.
  destruct fuel as [|fuel]; [lia|]. rewrite parse_elements_unfold.
  destruct l as [|y l].
  - cbn [List.map]. rewrite join_single, append_assoc.
    rewrite (Hx Hwx) by (first [reflexivity | cbn [list_sum fold_right List.map] in *; lia]). reflexivity.
  - pose proof (size_positive y) as Hy. pose proof (size_positive x) as Hsx.
    change (List.map stringify (x :: y :: l))
      with (stringify x :: stringify y :: List.map stringify l).
    rewrite join_cons, !append_assoc.
    rewrite (Hx Hwx) by (first [reflexivity | cbn [list_sum fold_right List.map] in *; lia]).
    change (List.map size (y :: l)) with (size y :: List.map size l) in Hfuel.
    change (stringify y :: List.map stringify l)
      with (List.map stringify (y :: l)) in *.
    change ("," +:+ ?r) with (String "," r). cbn [skip_ws is_ws].
    assert (skip_ws (join "]" (List.map stringify (y :: l)) +:+ rest)
            = join "]" (List.map stringify (y :: l)) +:+ rest) as ->.
    { destruct (join_head "]" (stringify y) (List.map stringify l) rest)
        as (tail & Ht).
      change (List.map stringify (y :: l))
        with (stringify y :: List.map stringify l).
      rewrite Ht. apply skip_ws_stringify. }
    rewrite IH; [done|done|done|done|].
    change (List.map size (y :: l)) with (size y :: List.map size l).
    unfold list_sum in *; cbn [fold_right] in *; lia.
Qed.

Lemma parse_member (k : string) (x : JSONValue num) (fuel : nat)
    (tail : string) :
  reads_back x -> well_formed x = true -> 2 * size x <= fuel ->
  starts_with_char is_num_char tail = false ->
  parse_members (S fuel) (stringify_member (k, x) +:+ tail) =
  match skip_ws tail with
  | String "}"%char rest' => POk [(k, x)] rest'
  | String ","%char rest' =>
      match parse_members fuel (skip_ws rest') with
      | POk m rest'' => POk ((k, x) :: m) rest''
      | PErr => PErr
      | PFuel => PFuel
      end
  | _ => PErr
  end.
Proof.
  intros Hx Hwx Hfuel Htail. cbn [stringify_member].
  rewrite !append_assoc, quote_append.
  rewrite parse_members_unfold, parse_chars_quote_chars.
  change (":" +:+ ?r) with (String ":" r). cbn [skip_ws is_ws].
  rewrite skip_ws_stringify. by rewrite (Hx Hwx).
Qed.

Lemma parse_members_join (m : list (string * JSONValue num)) :
  m <> [] ->
  Forall (fun kx => reads_back (snd kx)) m ->
  forallb (fun '(_, x) => well_formed x) m = true ->
  forall fuel rest,
    2 * list_sum (List.map (fun '(_, x) => size x) m) + 1 <= fuel ->
    parse_members fuel (join "}" (List.map stringify_member m) +:+ rest) = POk m rest.
Proof.
  induction m as [|[k x] m IH]; [done|]. intros _ Hall Hwf fuel rest Hfuel.
  apply Forall_cons in Hall as [Hx Hall]. cbn [snd] in Hx.
  cbn [forallb] in Hwf. apply andb_prop in Hwf as [Hwx Hwf].
  cbn [List.map list_sum fold_right] in Hfuel.
  destruct fuel as [|fuel]; [lia|].
  destruct m as [|[k' y] m].
  - cbn [List.map]. rewrite join_single, append_assoc.
    rewrite parse_member by (first [done | reflexivity | cbn [list_sum fold_right List.map] in *; lia]). reflexivity.
  - pose proof (size_positive y) as Hy. pose proof (size_positive x) as Hsx.
    change (List.map stringify_member ((k, x) :: (k', y) :: m))
      with (stringify_member (k, x) :: stringify_member (k', y)
              :: List.map stringify_member m).
    rewrite join_cons, !append_assoc.
    rewrite parse_member by (first [done | reflexivity | cbn [list_sum fold_right List.map] in *; lia]).
    change (stringify_member (k', y) :: List.map stringify_member m)
      with (List.map stringify_member ((k', y) :: m)) in *.
    change ("," +:+ ?r) with (String "," r). cbn [skip_ws is_ws].
    assert (skip_ws (join "}" (List.map stringify_member ((k', y) :: m)) +:+ rest)
            = join "}" (List.map stringify_member ((k', y) :: m)) +:+ rest) as ->.
    { destruct (join_head "}" (stringify_member (k', y))
                  (List.map stringify_member m) rest) as (tail & Ht).
      change (List.map stringify_member ((k', y) :: m))
        with (stringify_member (k', y) :: List.map stringify_member m).
      rewrite Ht. cbn [stringify_member]. by rewrite !append_assoc, quote_append. }
    rewrite IH; [done|done|done|done|].
    unfold list_sum in *; cbn [List.map fold_right] in *; lia.
Qed.

(** An object whose properties are distinct is built as it was written. *)
Lemma define_property_fresh {A : Type} (k : string) (x : A)
    (m : list (string * A)) :
  k ∉ List.map fst m -> define_property k x m = m ++ [(k, x)].
Proof.
  induction m as [|[k' x'] m IH]; [done|]. cbn. intros Hk.
  destruct (String.eqb_spec k k') as [->|Hne].
  - exfalso. apply Hk. apply list_elem_of_here.
  - rewrite IH; [done|]. intros Hin. apply Hk. by apply list_elem_of_further.
Qed.

Lemma object_of_members_fold {A : Type} (acc m : list (string * A)) :
  NoDup (List.map fst (acc ++ m)) ->
  fold_left (fun acc kx => define_property (fst kx) (snd kx) acc) m acc = acc ++ m.
Proof.
  revert acc. induction m as [|[k x] m IH]; intros acc Hnd.
  - by rewrite app_nil_r.
  - cbn [fold_left fst snd]. rewrite define_property_fresh.
    + rewrite IH; rewrite <- app_assoc; done.
    + rewrite List.map_app in Hnd. cbn in Hnd.
      apply NoDup_app in Hnd as (_ & Hdis & _).
      intros Hin. apply (Hdis k Hin). apply list_elem_of_here.
Qed.

Lemma object_of_members_distinct {A : Type} (m : list (string * A)) :
  NoDup (List.map fst m) -> object_of_members m = m.
Proof. intros Hnd. unfold object_of_members. by rewrite object_of_members_fold. Qed.

Lemma parse_value_stringify (v : JSONValue num) : reads_back v.
Proof.
  induction v as [|b|n|s|l IHl|m IHm] using JSONValue_induction;
    intros Hwf fuel rest Hfuel Hrest; cbn [size] in Hfuel;
    (destruct fuel as [|fuel]; [lia|]).
  - reflexivity.
  - by destruct b.
  - cbn [stringify].
    pose proof (num_to_string_start n) as Hs.
    pose proof (num_to_string_chars n) as Hc.
    destruct (num_to_string n) as [|c s] eqn:Hn; [done|].
    rewrite append_cons, parse_value_number by done.
    rewrite <- append_cons, span_num_append by done.
    by rewrite <- Hn, num_of_to_string.
  - cbn [stringify]. rewrite quote_append, parse_value_string.
    by rewrite parse_chars_quote_chars.
  - cbn [stringify well_formed] in *.
    change (("[" +:+ ?a) +:+ rest) with (String "[" (a +:+ rest)).
    rewrite parse_value_array.
    destruct l as [|x l]; [done|].
    destruct (join_head "]" (stringify x) (List.map stringify l) rest)
      as (tail & Ht).
    destruct (stringify_start x) as (c & s & Hx & Hc).
    change (List.map stringify (x :: l))
      with (stringify x :: List.map stringify l).
    rewrite Ht, Hx, append_cons, (value_start_not_ws c _ Hc),
      (value_start_not_bracket c Hc).
    rewrite <- append_cons, <- Hx, <- Ht.
    change (stringify x :: List.map stringify l)
      with (List.map stringify (x :: l)).
    rewrite parse_elements_join; [done|done|done|done|lia].
  - cbn [stringify well_formed] in *.
    apply andb_prop in Hwf as [Hnd Hwf]. apply bool_decide_eq_true in Hnd.
    change (List.map (fun '(k, x) => quote k +:+ ":" +:+ stringify x) m)
      with (List.map stringify_member m).
    change (("{" +:+ ?a) +:+ rest) with (String "{" (a +:+ rest)).
    rewrite parse_value_object.
    destruct m as [|[k x] m]; [done|].
    destruct (join_head "}" (stringify_member (k, x))
                (List.map stringify_member m) rest) as (tail & Ht).
    change (List.map stringify_member ((k, x) :: m))
      with (stringify_member (k, x) :: List.map stringify_member m).
    assert (exists s0, stringify_member (k, x) +:+ tail = String "034"%char s0)
      as (s0 & Hs0).
    { cbn [stringify_member]. rewrite !append_assoc, quote_append. by eexists. }
    rewrite Ht, Hs0. cbn [skip_ws is_ws Ascii.eqb Bool.eqb].
    rewrite <- Hs0, <- Ht.
    change (stringify_member (k, x) :: List.map stringify_member m)
      with (List.map stringify_member ((k, x) :: m)).
    rewrite parse_members_join; [|done|done|done|lia].
    by rewrite object_of_members_distinct.
Qed.

Lemma append_nil_r (s : string) : s +:+ EmptyString = s.
Proof. induction s as [|c s IH]; [done|]. by rewrite append_cons, IH. Qed.

Lemma length_append (a b : string) :
  String.length (a +:+ b) = String.length a + String.length b.
Proof. induction a as [|c a IH]; [done|]. rewrite append_cons. cbn. by rewrite IH. Qed.

Lemma join_length (close : string) (parts : list string) :
  list_sum (List.map String.length parts) <= String.length (join close parts).
Proof.
  induction parts as [|p parts IH]; [cbn; lia|]. unfold list_sum in *.
  destruct parts as [|q parts].
  - rewrite join_single, length_append. cbn [List.map fold_right]. lia.
  - rewrite join_cons, !length_append.
    change (List.map String.length (p :: q :: parts))
      with (String.length p :: List.map String.length (q :: parts)).
    unfold list_sum in *; cbn [fold_right] in *; lia.
Qed.

(** A serialisation is at least as long as the value is large, so
    [parse] gives the parser enough fuel for it. *)
Lemma size_le_length (v : JSONValue num) :
  size v <= String.length (stringify v).
Proof.
  induction v as [|b|n|s|l IHl|m IHm] using JSONValue_induction.
  - cbn. lia.
  - destruct b; cbn; lia.
  - pose proof (num_to_string_start n) as Hs. cbn [stringify size].
    destruct (num_to_string n); [done|]. cbn. lia.
  - cbn. lia.
  - cbn [stringify size]. rewrite length_append.
    assert (list_sum (List.map size l)
            <= list_sum (List.map String.length (List.map stringify l))) as Hle.
    { induction IHl as [|x l Hx _ IH]; [done|].
      unfold list_sum in *; cbn [List.map fold_right] in *; lia. }
    pose proof (join_length "]" (List.map stringify l)) as Hj.
    cbn [String.length]. lia.
  - cbn [stringify size]. rewrite length_append.
    change (List.map (fun '(k, x) => quote k +:+ ":" +:+ stringify x) m)
      with (List.map stringify_member m).
    assert (list_sum (List.map (fun '(_, x) => size x) m)
            <= list_sum (List.map String.length (List.map stringify_member m)))
      as Hle.
    { induction IHm as [|[k x] m Hx _ IH]; [done|].
      unfold list_sum in *. cbn [List.map fold_right stringify_member snd] in *.
      rewrite !length_append. lia. }
    pose proof (join_length "}" (List.map stringify_member m)) as Hj.
    cbn [String.length]. lia.
Qed.

(** [JSON.parse(JSON.stringify(v))] is [v]. *)
Lemma parse_stringify (v : JSONValue num) :
  well_formed v = true -> parse (stringify v) = Returned v.
Proof.
  intros Hwf. unfold parse.
  pose proof (skip_ws_stringify v EmptyString) as Hs. rewrite append_nil_r in Hs.
  rewrite Hs. pose proof (parse_value_stringify v Hwf) as Hp.
  specialize (Hp (S (2 * String.length (stringify v))) EmptyString).
  rewrite append_nil_r in Hp. rewrite Hp; [done| |done].
  pose proof (size_le_length v). lia.
Qed.

Lemma stringify_nonempty (v : JSONValue num) : stringify v <> EmptyString.
Proof. by destruct (stringify_start v) as (c & s & -> & _). Qed.

End RoundTrip.

End JSONFacts.

(** Integers are numbers of the platform. *)
#[global] Instance Z_JSNumber : JSON.JSNumber Z := {|
  JSON.num_to_string := JSON.Z_to_string;
  JSON.num_of_string := JSON.Z_of_string;
  JSON.num_to_string_chars := JSONFacts.Z_to_string_chars;
  JSON.num_to_string_start := JSONFacts.Z_to_string_start;
  JSON.num_of_to_string := JSONFacts.Z_of_to_string
|}.

Section TextBuffers.

Variable notify_unchanged : bool.

Lemma value_set_text_unfold (fuel : nat) (target : ModelRef) (v : string)
    (w : World) :
  value_set_text notify_unchanged (S fuel) target v w =
  let w0 := match target with
            | OfEditor => record (Editor_write v) w
            | OfContext => w
            end in
  match target, editor_model (editor w0) with
  | OfEditor, OwnModel old =>
      if takes_effect notify_unchanged old v
      then Returned (push_history old
                       (with_editor (editor_with_model (OwnModel v) (editor w0)) w0))
      else Returned w0
  | _, em =>
      let old := value_text (model w0) in
      if takes_effect notify_unchanged old v then
        let w1 := with_model (model_with_text v (model w0)) w0 in
        w2 ← triggerContentChange_with
               (_onContentChanged_with
                  (value_set_text notify_unchanged fuel OfEditor)) w1;
        Returned (match em with
                  | ContextModel => push_history old w2
                  | OwnModel _ => w2
                  end)
      else Returned w0
  end.
Proof. reflexivity. Qed.

(** The handler never needs more than one assignment. *)
Lemma onContentChanged_closed (fuel : nat) (w : World) :
  _onContentChanged notify_unchanged (S fuel) w = Returned (sync_editor w).
Proof.
  unfold _onContentChanged, _onContentChanged_with, sync_editor, editor_text, toString.
  destruct (editor_model (editor w)) as [|old] eqn:Hem.
  - by rewrite String.eqb_refl.
  - destruct (String.eqb_spec old (value_text (model w))) as [|Hne]; [done|].
    cbn [negb]. rewrite value_set_text_unfold. cbn [record editor].
    rewrite Hem. unfold takes_effect.
    destruct (String.eqb_spec old (value_text (model w))); [done|].
    by rewrite orb_true_r.
Qed.

(** An assignment never needs more than two. *)
Lemma value_set_text_closed (fuel : nat) (target : ModelRef) (v : string)
    (w : World) :
  value_set_text notify_unchanged (S (S fuel)) target v w =
  Returned (assign_text notify_unchanged target v w).
Proof.
  pose proof (onContentChanged_closed fuel) as Hsync.
  unfold _onContentChanged in Hsync.
  rewrite value_set_text_unfold. unfold assign_text, triggerContentChange_with.
  destruct target; cbn [record editor model with_model contentChanged_connected].
  - destruct (takes_effect notify_unchanged (value_text (model w)) v); [|done].
    destruct (contentChanged_connected w);
      [rewrite Hsync|]; by destruct (editor_model (editor w)).
  - destruct (editor_model (editor w)) as [|old];
      [|by destruct (takes_effect notify_unchanged old v)].
    destruct (takes_effect notify_unchanged (value_text (model w)) v); [|done].
    destruct (contentChanged_connected w);
      [rewrite Hsync|]; done.
Qed.

Lemma fromString_closed (fuel : nat) (s : string) (w : World) :
  fromString notify_unchanged (S (S fuel)) s w =
  Returned (assign_text notify_unchanged OfContext s w).
Proof. apply value_set_text_closed. Qed.

End TextBuffers.

Section DocumentModelFacts.

Variable notify_unchanged : bool.

Lemma set_dirty_same (w : World) : set_dirty (_dirty (model w)) w = w.
Proof. unfold set_dirty. by rewrite Bool.eqb_reflx. Qed.

Lemma set_readOnly_same (w : World) : set_readOnly (_readOnly (model w)) w = w.
Proof. unfold set_readOnly. by rewrite Bool.eqb_reflx. Qed.

Lemma set_dirty_dirty (b : bool) (w : World) : _dirty (model (set_dirty b w)) = b.
Proof.
  destruct_world w. unfold set_dirty, triggerStateChange, _onModelStateChanged,
    _handleDirtyState. cbn.
  destruct (Bool.eqb_spec b _dirty0); [done|]. case_bools; reflexivity.
Qed.

Lemma set_dirty_trace (b : bool) (w : World) :
  trace (set_dirty b w) =
  trace w ++ (if Bool.eqb b (_dirty (model w)) then []
              else [Emit_stateChanged (mkChangedArgs "dirty" (_dirty (model w)) b)]).
Proof.
  unfold set_dirty, triggerStateChange, _onModelStateChanged, _handleDirtyState.
  destruct (Bool.eqb b (_dirty (model w))); [by rewrite app_nil_r|].
  cbn. destruct (stateChanged_connected w); [destruct b|]; reflexivity.
Qed.

Lemma set_readOnly_readOnly (b : bool) (w : World) :
  _readOnly (model (set_readOnly b w)) = b.
Proof.
  destruct_world w. unfold set_readOnly, triggerStateChange, _onModelStateChanged. cbn.
  destruct (Bool.eqb_spec b _readOnly0); [done|]. case_bools; reflexivity.
Qed.

Lemma set_readOnly_trace (b : bool) (w : World) :
  trace (set_readOnly b w) =
  trace w ++ (if Bool.eqb b (_readOnly (model w)) then []
              else [Emit_stateChanged
                      (mkChangedArgs "readOnly" (_readOnly (model w)) b)]).
Proof.
  unfold set_readOnly, triggerStateChange, _onModelStateChanged.
  destruct (Bool.eqb b (_readOnly (model w))); [by rewrite app_nil_r|].
  cbn. destruct (stateChanged_connected w); reflexivity.
Qed.

(** C3.  Setting [dirty] (or [readOnly]) to the value it has leaves the
    world as it is, so nothing is emitted; setting it to the other value
    stores it and adds exactly one [stateChanged] emission to the trace,
    with payload [{name; oldValue = the previous value; newValue = b}]. *)
Theorem C3_state_setters (b : bool) (w : World) :
  (_dirty (model w) = b -> set_dirty b w = w) /\
  (_dirty (model w) <> b ->
     _dirty (model (set_dirty b w)) = b /\
     trace (set_dirty b w) =
       trace w ++ [Emit_stateChanged (mkChangedArgs "dirty" (_dirty (model w)) b)]) /\
  (_readOnly (model w) = b -> set_readOnly b w = w) /\
  (_readOnly (model w) <> b ->
     _readOnly (model (set_readOnly b w)) = b /\
     trace (set_readOnly b w) =
       trace w ++
       [Emit_stateChanged (mkChangedArgs "readOnly" (_readOnly (model w)) b)]).
Proof.
  split; [|split; [|split]].
  - intros <-. apply set_dirty_same.
  - intros Hne. split; [apply set_dirty_dirty|].
    rewrite set_dirty_trace.
    destruct (Bool.eqb_spec b (_dirty (model w))); [congruence|done].
  - intros <-. apply set_readOnly_same.
  - intros Hne. split; [apply set_readOnly_readOnly|].
    rewrite set_readOnly_trace.
    destruct (Bool.eqb_spec b (_readOnly (model w))); [congruence|done].
Qed.

(** C4.  With the setter of the observable string as the specification
    describes it, [fromString s] returns and emits [contentChanged] for
    every [s], also when [s] is the text the buffer already holds. *)
Theorem C4_fromString_always_notifies (fuel : nat) (s : string) (w : World) :
  exists w' later,
    fromString always_notifies (S (S fuel)) s w = Returned w' /\
    trace w' = trace w ++ Emit_contentChanged (_dirty (model w)) :: later.
Proof.
  destruct_world w. unfold always_notifies. unfold_set_text. cbn.
  case_bools; eexists _, _; (split; [reflexivity|]); cbn;
    rewrite <- ?app_assoc; reflexivity.
Qed.

(** C10.  When [fromString] changes the text, the trace grows by the
    [contentChanged] emission, made while [dirty] still has its previous
    value, then by what the delivery of that notification did (buffer
    writes of the widget only), and last by the [stateChanged] emission
    for [dirty], which is there exactly when the model was clean. *)
Theorem C10_content_before_dirty (fuel : nat) (s : string) (w : World) :
  value_text (model w) <> s ->
  exists w' during,
    fromString notify_unchanged (S (S fuel)) s w = Returned w' /\
    trace w' =
      trace w ++ [Emit_contentChanged (_dirty (model w))] ++ during ++
      (if _dirty (model w) then []
       else [Emit_stateChanged (mkChangedArgs "dirty" false true)]) /\
    Forall (fun e => is_editor_write e = true) during /\
    _dirty (model w') = true.
Proof.
  intros Hne. destruct_world w. unfold_set_text. cbn in *.
  destruct (String.eqb_spec value_text0 s) as [|_]; [done|].
  rewrite orb_true_r.
  destruct contentChanged_connected0, editor_model0 as [|old]; cbn.
  1,3,4: case_bools; eexists _, []; (split; [reflexivity|]); cbn;
    rewrite <- ?app_assoc; cbn; done.
  destruct (String.eqb_spec old s) as [|_]; cbn.
  - case_bools; eexists _, []; (split; [reflexivity|]); cbn;
      rewrite <- ?app_assoc; cbn; done.
  - rewrite orb_true_r.
    case_bools; eexists _, [Editor_write s]; (split; [reflexivity|]); cbn;
      rewrite <- ?app_assoc; cbn; repeat split; auto.
Qed.

End DocumentModelFacts.

Section WidgetFacts.

Variable notify_unchanged : bool.
Variable defaultSelectionStyle : ISelectionStyle.t.

Lemma buffer_writes_record (e : Event) (w : World) :
  buffer_writes (record e w) =
  buffer_writes w + (if is_editor_write e then 1 else 0).
Proof.
  unfold buffer_writes. cbn. rewrite List.filter_app, length_app. cbn.
  destruct (is_editor_write e); reflexivity.
Qed.

(** C1.  When the widget is not disposed, the readiness handler returns,
    and afterwards the editor's text is the model's serialised text and
    the editor's history is empty.  The text is the one the model held
    when the handler started: the handler leaves the model's text as it
    is and brings the editor to it, by one write to the editor's buffer. *)
Theorem C1_ready_seeds_editor (fuel : nat) (w : World) :
  isDisposed w = false ->
  exists w',
    _onContextReady notify_unchanged (S (S fuel)) w = Returned w' /\
    editor_text w' = toString (model w') /\
    history (editor w') = [] /\
    toString (model w') = toString (model w) /\
    buffer_writes w' = S (buffer_writes w).
Proof.
  intros Hd. unfold _onContextReady. rewrite Hd, value_set_text_closed.
  eexists. split; [reflexivity|].
  destruct_world w. unfold assign_text, sync_editor, store_own, takes_effect.
  unfold_set_text. unfold buffer_writes. cbn.
  destruct editor_model0 as [|old]; cbn.
  - destruct (notify_unchanged || negb (String.eqb value_text0 value_text0));
      cbn; case_bools; cbn; rewrite ?List.filter_app, ?length_app; cbn;
      repeat split; try done; lia.
  - destruct (notify_unchanged || negb (String.eqb old value_text0)) eqn:Ht;
      cbn; case_bools; cbn; rewrite ?List.filter_app, ?length_app; cbn;
      repeat split; try done; try lia.
    all: destruct notify_unchanged; cbn in Ht; [done|].
    all: destruct (String.eqb_spec old value_text0); by subst.
Qed.

(** C2.  The content-changed handler returns; when the model's serialised
    text is the editor's text it changes nothing, and when the two differ
    it makes exactly one buffer write, after which the editor's text is
    the model's. *)
Theorem C2_echo_suppression (fuel : nat) (w : World) :
  exists w',
    _onContentChanged notify_unchanged (S fuel) w = Returned w' /\
    (toString (model w) = editor_text w -> w' = w) /\
    (toString (model w) <> editor_text w ->
       trace w' = trace w ++ [Editor_write (toString (model w))] /\
       buffer_writes w' = S (buffer_writes w) /\
       editor_text w' = toString (model w) /\
       model w' = model w).
Proof.
  rewrite onContentChanged_closed. eexists. split; [reflexivity|].
  unfold sync_editor, editor_text, toString.
  destruct (editor_model (editor w)) as [|old] eqn:Hem; [done|].
  destruct (String.eqb_spec old (value_text (model w))) as [Heq|Hne].
  - split; [done|]. intros Hne. by rewrite Heq in Hne.
  - split; [intros Heq; by rewrite Heq in Hne|]. intros _.
    unfold store_own, push_history. cbn. repeat split.
    change (buffer_writes (record (Editor_write (value_text (model w))) w)
            = S (buffer_writes w)).
    rewrite buffer_writes_record. cbn. lia.
Qed.

Lemma onContextReady_disposed (fuel : nat) (w : World) :
  isDisposed w = true -> _onContextReady notify_unchanged fuel w = Returned w.
Proof. intros Hd. unfold _onContextReady. by rewrite Hd. Qed.

(** *** Pruning of stale selections *)

Lemma prune_fold_lookup (c : Collaborators) (keys : list string) (w : World)
    (k : string) :
  selections (editor (fold_left (prune_step c) keys w)) !! k =
  if bool_decide (k ∈ keys) && negb (has c k) then None
  else selections (editor w) !! k.
Proof.
  revert w. induction keys as [|key keys IH]; intros w; cbn.
  - reflexivity.
  - rewrite IH. unfold prune_step.
    destruct (decide (k = key)) as [->|Hne].
    + rewrite (bool_decide_eq_true_2 (key ∈ key :: keys)) by apply list_elem_of_here.
      destruct (has c key); cbn.
      * rewrite andb_false_r. reflexivity.
      * rewrite andb_true_r. case_bool_decide; [done|]. apply lookup_delete_eq.
    + assert (bool_decide (k ∈ key :: keys) = bool_decide (k ∈ keys)) as ->
        by (apply bool_decide_ext; rewrite elem_of_cons;
            split; [by intros [?|?]|by right]).
      destruct (bool_decide (k ∈ keys) && negb (has c k)); [done|].
      destruct (has c key); cbn; [done|]. by rewrite lookup_delete_ne.
Qed.

(** C9.  With a roster at hand, after the roster-changed handler a
    selection entry is there exactly when it was there before and the
    roster has its key, with the value it had. *)
Theorem C9_prune_stale_selections (c : Collaborators) (w : World) (key : string) :
  collaborators (modelDB w) = Some c ->
  selections (editor (_onCollaboratorsChanged w)) !! key =
  if has c key then selections (editor w) !! key else None.
Proof.
  intros Hc. unfold _onCollaboratorsChanged. rewrite Hc.
  change (fold_left _ ?l ?w0) with (fold_left (prune_step c) l w0).
  rewrite prune_fold_lookup.
  destruct (has c key); cbn; [by rewrite andb_false_r|].
  rewrite andb_true_r. case_bool_decide as Hin; [done|].
  destruct (selections (editor w) !! key) as [s|] eqn:Hs; [|done].
  exfalso. apply Hin. apply list_elem_of_fmap. exists (key, s). split; [done|].
  by apply elem_of_map_to_list.
Qed.

End WidgetFacts.

Section DirtyMarker.

Variable notify_unchanged : bool.
Variable defaultSelectionStyle : ISelectionStyle.t.
Context {num : Type} `{JSON.JSNumber num}.

Lemma marker_ok_token (w : World) :
  marker_ok w ->
  JSString.has_token DIRTY_CLASS (title_className w) = _dirty (model w).
Proof.
  unfold marker_ok. destruct (_dirty (model w)).
  - intros (c & -> & _). by apply JSStringFacts.has_token_appended.
  - apply JSStringFacts.has_token_includes.
Qed.

Lemma handleDirtyState_marker (w : World) :
  JSString.includes DIRTY_CLASS (title_className w) = false ->
  marker_ok (_handleDirtyState w).
Proof.
  intros Hi. unfold marker_ok, _handleDirtyState.
  destruct_world w. cbn in *. destruct _dirty0; cbn.
  - by exists title_className0.
  - by rewrite JSStringFacts.replace_first_absent.
Qed.

Lemma set_dirty_marker (b : bool) (w : World) :
  stateChanged_connected w = true -> marker_ok w -> marker_ok (set_dirty b w).
Proof.
  intros Hc Hm. unfold set_dirty.
  destruct (Bool.eqb_spec b (_dirty (model w))) as [|Hne]; [done|].
  unfold triggerStateChange, _onModelStateChanged, _handleDirtyState, marker_ok in *.
  destruct_world w. cbn in *. subst. destruct b, _dirty0; try done; cbn.
  - by exists title_className0.
  - destruct Hm as (c & -> & Hi).
    change (c +:+ " " +:+ DIRTY_CLASS) with (c +:+ String " " DIRTY_CLASS).
    rewrite JSStringFacts.replace_first_appended by done.
    by apply JSStringFacts.includes_separator.
Qed.

Lemma set_dirty_frame (b : bool) (w : World) :
  ready_callback (set_dirty b w) = ready_callback w /\
  stateChanged_connected (set_dirty b w) = stateChanged_connected w /\
  (stateChanged_connected w = false ->
     title_className (set_dirty b w) = title_className w).
Proof.
  unfold set_dirty, triggerStateChange, _onModelStateChanged, _handleDirtyState.
  destruct_world w. cbn. destruct (Bool.eqb b _dirty0); [done|]. cbn.
  destruct stateChanged_connected0; [|done]. destruct b; done.
Qed.

Lemma set_dirty_invariant (b : bool) (w : World) :
  binding_invariant w -> binding_invariant (set_dirty b w).
Proof.
  intros [H1 H2]. destruct (set_dirty_frame b w) as (Hr & Hc & Ht).
  split; rewrite Hr, Hc.
  - intros Hcon. destruct (H1 Hcon) as [? ?]. split; [done|].
    by apply set_dirty_marker.
  - intros Hrc. destruct (H2 Hrc) as [Hcon Hi]. split; [done|]. by rewrite Ht.
Qed.

(** An assignment moves the dirty flag and the title class the way
    [dirty = true] does, or not at all. *)
Lemma assign_text_frame (target : ModelRef) (v : string) (w : World) :
  let a := assign_text notify_unchanged target v w in
  ready_callback a = ready_callback w /\
  stateChanged_connected a = stateChanged_connected w /\
  isDisposed a = isDisposed w /\
  ((_dirty (model a) = _dirty (model w) /\ title_className a = title_className w) \/
   (_dirty (model a) = _dirty (model (set_dirty true w)) /\
    title_className a = title_className (set_dirty true w))).
Proof.
  destruct_world w.
  unfold assign_text, sync_editor, store_own, takes_effect, set_dirty,
    triggerStateChange, _onModelStateChanged, _handleDirtyState, push_history.
  cbn. destruct target, editor_model0 as [|old], notify_unchanged; cbn;
    case_bools; repeat split; try done; first [by left | by right].
Qed.

Lemma assign_text_invariant (target : ModelRef) (v : string) (w : World) :
  binding_invariant w -> binding_invariant (assign_text notify_unchanged target v w).
Proof.
  intros Hinv. destruct (assign_text_frame target v w) as (Hr & Hc & _ & Hd).
  pose proof (set_dirty_invariant true w Hinv) as [S1 S2].
  destruct (set_dirty_frame true w) as (Sr & Sc & _).
  destruct Hinv as [H1 H2]. unfold binding_invariant, marker_ok in *.
  split; rewrite Hr, Hc.
  - intros Hcon. destruct Hd as [[Hd Ht]|[Hd Ht]]; rewrite Hd, Ht.
    + by apply H1.
    + rewrite Sr, Sc in S1. by apply S1.
  - intros Hrc. destruct Hd as [[Hd Ht]|[Hd Ht]]; rewrite Ht.
    + by apply H2.
    + rewrite Sr, Sc in S2. by apply S2.
Qed.

Lemma onContextReady_closed (fuel : nat) (w : World) :
  _onContextReady notify_unchanged (S (S fuel)) w =
  Returned
    (if isDisposed w then w
     else with_ready_resolved true
            (with_contentChanged_connected true
               (with_stateChanged_connected true
                  (_handleDirtyState
                     (clearHistory
                        (assign_text notify_unchanged OfEditor
                           (toString (model w)) w)))))).
Proof.
  unfold _onContextReady. destruct (isDisposed w); [done|].
  by rewrite value_set_text_closed.
Qed.

Lemma constructor_closed (fuel : nat) (options : IOptions) :
  exists w,
    constructor notify_unchanged (S (S fuel)) options = Returned w /\
    binding_invariant w.
Proof.
  unfold constructor. rewrite value_set_text_closed. cbn [mbind Outcome_bind].
  eexists. split; [reflexivity|].
  match goal with
  | |- context [assign_text _ _ ?v ?w0] =>
      destruct (assign_text_frame OfEditor v w0) as (Hr & Hc & _ & Hd);
      destruct (set_dirty_frame true w0) as (_ & _ & St);
      remember (assign_text notify_unchanged OfEditor v w0) as a eqn:Ha
  end.
  clear Ha.
  cbn [stateChanged_connected title_className ready_callback] in Hr, Hc, Hd, St.
  assert (title_className a = EmptyString) as Ht.
  { destruct Hd as [[_ ->]|[_ ->]]; [done|]. by apply St. }
  assert (binding_invariant (with_ready_callback true a)) as Hinv.
  { split; cbn [with_ready_callback stateChanged_connected ready_callback
                  title_className].
    - by rewrite Hc.
    - intros _. by rewrite Hc, Ht. }
  by destruct (isCollaborative (modelDB (with_ready_callback true a))).
Qed.

Lemma onCollaboratorsChanged_frame (w : World) :
  let w' := _onCollaboratorsChanged w in
  model w' = model w /\ title_className w' = title_className w /\
  ready_callback w' = ready_callback w /\
  stateChanged_connected w' = stateChanged_connected w.
Proof.
  unfold _onCollaboratorsChanged. destruct (collaborators (modelDB w)) as [c|]; [|done].
  change (fold_left _ ?l ?w0) with (fold_left (prune_step c) l w0).
  generalize ((map_to_list (selections (editor w))).*1). intros keys.
  revert w. induction keys as [|k keys IH]; intros w; [done|]. cbn.
  destruct (IH (prune_step c w k)) as (-> & -> & -> & ->).
  unfold prune_step. by destruct (has c k).
Qed.

Lemma step_invariant (fuel : nat) (i : Input) (w : World) :
  binding_invariant w ->
  exists w',
    step notify_unchanged defaultSelectionStyle (S (S fuel)) i w = Returned w' /\
    binding_invariant w'.
Proof.
  intros Hinv. destruct i; cbn [step].
  - (* ContextReady *)
    destruct (ready_callback w) eqn:Hrc; [|by exists w].
    rewrite onContextReady_closed. eexists. split; [reflexivity|].
    destruct Hinv as [_ H2]. destruct (H2 Hrc) as [Hcon Hi].
    cbn [isDisposed with_ready_callback].
    destruct (isDisposed w); [split; cbn; [by rewrite Hcon|done]|].
    match goal with
    | |- context [assign_text _ _ ?v ?w0] =>
        destruct (assign_text_frame OfEditor v w0) as (Hr & Hc & _ & Hd);
        destruct (set_dirty_frame true w0) as (_ & _ & St);
        remember (assign_text notify_unchanged OfEditor v w0) as a eqn:Ha
    end.
    clear Ha.
    cbn [stateChanged_connected title_className ready_callback
           with_ready_callback] in Hr, Hc, Hd, St.
    assert (title_className a = title_className w) as Ht.
    { destruct Hd as [[_ ->]|[_ ->]]; [done|]. by apply St. }
    assert (ready_callback (_handleDirtyState (clearHistory a)) = false) as Hrc'.
    { unfold _handleDirtyState. by destruct (_dirty (model (clearHistory a))). }
    split; cbn [ready_callback stateChanged_connected with_ready_resolved
                  with_contentChanged_connected with_stateChanged_connected];
      [|by rewrite Hrc'].
    intros _. split; [done|].
    change (marker_ok (_handleDirtyState (clearHistory a))).
    apply handleDirtyState_marker. cbn. by rewrite Ht.
  - (* ModelDBConnected *)
    destruct (connected_callback w); [|by exists w].
    eexists. split; [reflexivity|]. unfold onConnected.
    cbn [modelDB with_connected_callback].
    destruct (collaborators (modelDB w)); [|exact Hinv].
    match goal with
    | |- binding_invariant (_onCollaboratorsChanged ?w0) =>
        destruct (onCollaboratorsChanged_frame w0) as (Hm & Ht & Hr & Hc)
    end.
    destruct Hinv as [H1 H2]. unfold binding_invariant, marker_ok in *.
    rewrite Hm, Ht, Hr, Hc. split; [apply H1|apply H2].
  - (* RosterChanged *)
    destruct (collaborators (modelDB w)); [|by exists w].
    eexists. split; [reflexivity|].
    cbn [collaboratorsChanged_connected with_modelDB].
    destruct (collaboratorsChanged_connected w); [|exact Hinv].
    match goal with
    | |- binding_invariant (_onCollaboratorsChanged ?w0) =>
        destruct (onCollaboratorsChanged_frame w0) as (Hm & Ht & Hr & Hc)
    end.
    destruct Hinv as [H1 H2]. unfold binding_invariant, marker_ok in *.
    rewrite Hm, Ht, Hr, Hc. split; [apply H1|apply H2].
  - (* SelectionsSet *) eexists. split; [reflexivity|]. exact Hinv.
  - (* SetDirty *) eexists. split; [reflexivity|]. by apply set_dirty_invariant.
  - (* SetReadOnly *)
    eexists. split; [reflexivity|]. unfold set_readOnly.
    destruct (Bool.eqb b (_readOnly (model w))); [done|].
    unfold triggerStateChange, _onModelStateChanged.
    cbn [stateChanged_connected record with_model name String.eqb Ascii.eqb
           Bool.eqb].
    destruct (stateChanged_connected w); exact Hinv.
  - (* FromString *)
    rewrite fromString_closed. eexists. split; [reflexivity|].
    by apply assign_text_invariant.
  - (* FromJSON *)
    unfold fromJSON. rewrite fromString_closed. eexists. split; [reflexivity|].
    by apply assign_text_invariant.
  - (* Dispose *)
    eexists. split; [reflexivity|]. unfold dispose.
    destruct (isDisposed w); [done|]. destruct Hinv as [H1 H2].
    split; [done|]. intros Hrc. split; [done|]. by apply H2.
Qed.

Lemma run_invariant (fuel : nat) (inputs : list Input) (w : World) :
  binding_invariant w ->
  exists w',
    run notify_unchanged defaultSelectionStyle (S (S fuel)) inputs w = Returned w' /\
    binding_invariant w'.
Proof.
  revert w. induction inputs as [|i inputs IH]; intros w Hinv; [by exists w|].
  cbn [run]. destruct (step_invariant fuel i w Hinv) as (w1 & -> & Hinv1).
  cbn [mbind Outcome_bind]. by apply IH.
Qed.

(** C5.  A widget is constructed and then anything happens to it, in any
    order: the run returns, and whenever the state-changed handler is
    connected at the end (the widget is bound and not disposed) the title
    class has the dirty marker as a token exactly when the model's dirty
    flag is true. *)
Theorem C5_dirty_marker_invariant (fuel : nat) (options : IOptions)
    (inputs : list Input) :
  exists w0 w,
    constructor notify_unchanged (S (S fuel)) options = Returned w0 /\
    run notify_unchanged defaultSelectionStyle (S (S fuel)) inputs w0 = Returned w /\
    (stateChanged_connected w = true ->
     JSString.has_token DIRTY_CLASS (title_className w) = _dirty (model w)).
Proof.
  destruct (constructor_closed fuel options) as (w0 & Hc & Hinv0).
  destruct (run_invariant fuel inputs w0 Hinv0) as (w & Hr & [H1 _]).
  exists w0, w. repeat split; [done..|].
  intros Hcon. apply marker_ok_token. by apply H1.
Qed.

End DirtyMarker.

Section StructuredContent.

Variable notify_unchanged : bool.
Context {num : Type} `{JSON.JSNumber num}.

(** After [fromString s] the buffer holds [s]. *)
Lemma assign_text_context (s : string) (w : World) :
  value_text (model (assign_text notify_unchanged OfContext s w)) = s.
Proof.
  destruct_world w.
  unfold assign_text, sync_editor, store_own, takes_effect, set_dirty,
    triggerStateChange, _onModelStateChanged, _handleDirtyState, push_history.
  cbn. destruct (String.eqb_spec value_text0 s) as [->|_];
    destruct notify_unchanged, editor_model0 as [|old]; cbn; case_bools; done.
Qed.

Lemma toJSON_nonempty (m : DocumentModel) :
  value_text m <> EmptyString -> toJSON m = JSON.parse (value_text m).
Proof.
  intros Hne. unfold toJSON.
  by destruct (String.eqb_spec (value_text m) EmptyString).
Qed.

(** C6.  For every JSON value whose objects have distinct properties,
    [fromJSON v] returns and [toJSON] then returns [v] itself (so a value
    deep-equal to [v]). *)
Theorem C6_json_round_trip (fuel : nat) (v : JSON.JSONValue num) (w : World) :
  JSON.well_formed v = true ->
  exists w',
    fromJSON notify_unchanged (S (S fuel)) v w = Returned w' /\
    toJSON (model w') = Returned v.
Proof.
  intros Hwf. unfold fromJSON. rewrite fromString_closed.
  eexists. split; [reflexivity|].
  rewrite toJSON_nonempty; rewrite assign_text_context.
  - by apply JSONFacts.parse_stringify.
  - apply JSONFacts.stringify_nonempty.
Qed.

(** C7, as the code has it.  [fromJSON] parses nothing and raises
    nothing: for every JSON value it returns, with the serialised value
    in the buffer.  A parse error comes from [toJSON]: on an empty buffer
    it returns null, and on any other buffer it returns or raises what
    [JSON.parse] returns or raises on the buffer's text. *)
Theorem C7_parse_errors_come_from_toJSON (fuel : nat) (v : JSON.JSONValue num)
    (w : World) (m : DocumentModel) :
  (exists w',
     fromJSON notify_unchanged (S (S fuel)) v w = Returned w' /\
     value_text (model w') = JSON.stringify v) /\
  (value_text m = EmptyString -> toJSON m = Returned JSON.JNull) /\
  (value_text m <> EmptyString -> toJSON m = JSON.parse (value_text m)).
Proof.
  split; [|split].
  - unfold fromJSON. rewrite fromString_closed. eexists. split; [reflexivity|].
    apply assign_text_context.
  - intros Hm. unfold toJSON. by rewrite Hm.
  - apply toJSON_nonempty.
Qed.

End StructuredContent.

(** * The claims at concrete inputs *)

Section Concrete.

Import Examples.

Lemma C1_ready_seeds_editor_witness :
  exists w',
    _onContextReady false 2 loaded = Returned w' /\
    editor_text w' = toString (model w') /\
    history (editor w') = [] /\
    toString (model w') = "hello" /\
    buffer_writes w' = 1.
Proof. apply (C1_ready_seeds_editor false 0 loaded). reflexivity. Defined.

Lemma C2_echo_suppression_witness :
  (exists w', _onContentChanged false 1 clean = Returned w' /\ w' = clean) /\
  (exists w', _onContentChanged false 1 loaded = Returned w' /\
              buffer_writes w' = 1 /\ editor_text w' = "hello").
Proof.
  split.
  - destruct (C2_echo_suppression false 0 clean) as (w' & Hr & Hsame & _).
    exists w'. split; [exact Hr|]. apply Hsame. reflexivity.
  - destruct (C2_echo_suppression false 0 loaded) as (w' & Hr & _ & Hdiff).
    exists w'. split; [exact Hr|].
    destruct Hdiff as (_ & Hw & Ht & _); [discriminate|]. split; [exact Hw|exact Ht].
Defined.

Lemma C3_state_setters_witness :
  set_dirty false clean = clean /\
  trace (set_dirty true clean) =
    [Emit_stateChanged (mkChangedArgs "dirty" false true)] /\
  set_readOnly false clean = clean /\
  trace (set_readOnly true clean) =
    [Emit_stateChanged (mkChangedArgs "readOnly" false true)].
Proof.
  split; [|split; [|split]].
  - apply (C3_state_setters false clean). reflexivity.
  - apply (C3_state_setters true clean). discriminate.
  - apply (C3_state_setters false clean). reflexivity.
  - apply (C3_state_setters true clean). discriminate.
Defined.

Lemma C5_dirty_marker_invariant_witness :
  exists w0 w,
    constructor false 2 (mkOptions empty_model local_db editor_on_context)
      = Returned w0 /\
    run false style (num := Z) 2 [ContextReady; FromString "x"] w0 = Returned w /\
    JSString.has_token DIRTY_CLASS (title_className w) = _dirty (model w).
Proof.
  destruct (C5_dirty_marker_invariant false style (num := Z) 0
              (mkOptions empty_model local_db editor_on_context)
              [ContextReady; FromString "x"]) as (w0 & w & Hc & Hr & Hinv).
  exists w0, w. split; [exact Hc|]. split; [exact Hr|]. apply Hinv.
  vm_compute in Hc. injection Hc as <-.
  vm_compute in Hr. injection Hr as <-. reflexivity.
Defined.

Lemma C6_json_round_trip_witness :
  exists w',
    fromJSON false 2 sample clean = Returned w' /\
    toJSON (model w') = Returned sample.
Proof. apply (C6_json_round_trip false 0 sample clean). reflexivity. Defined.

(** C7 as the claim states it fails: the text [{] is not JSON, and
    [fromJSON] given that text returns, with the quoted text in the
    buffer. *)
Lemma C7_counterexample :
  JSON.parse (num := Z) "{" = Raised SyntaxError /\
  exists w',
    fromJSON false 2 (JSON.JString "{" : JSON.JSONValue Z) clean = Returned w' /\
    value_text (model w') = JSON.quote "{".
Proof. split; [reflexivity|]. eexists. split; reflexivity. Defined.

Lemma C7_parse_errors_come_from_toJSON_witness :
  toJSON (num := Z) empty_model = Returned JSON.JNull /\
  toJSON (num := Z) (mkDocumentModel "{" EmptyString false false) = Raised SyntaxError.
Proof.
  split.
  - apply (C7_parse_errors_come_from_toJSON false 0 sample clean empty_model).
    reflexivity.
  - rewrite (proj2 (proj2 (C7_parse_errors_come_from_toJSON false 0 sample clean
                             (mkDocumentModel "{" EmptyString false false))));
      [reflexivity|discriminate].
Defined.

Lemma C9_prune_stale_selections_witness :
  selections (editor (_onCollaboratorsChanged shared)) !! "B" = None /\
  selections (editor (_onCollaboratorsChanged shared)) !! "A" = Some [selection].
Proof.
  split.
  - rewrite (C9_prune_stale_selections (mkCollaborators alice {[ "A" := alice ]})
               shared "B"); reflexivity.
  - rewrite (C9_prune_stale_selections (mkCollaborators alice {[ "A" := alice ]})
               shared "A"); reflexivity.
Defined.

Lemma C10_content_before_dirty_witness :
  exists w' during,
    fromString false 2 "x" clean = Returned w' /\
    trace w' =
      trace clean ++ [Emit_contentChanged (_dirty (model clean))] ++ during ++
      (if _dirty (model clean) then []
       else [Emit_stateChanged (mkChangedArgs "dirty" false true)]) /\
    Forall (fun e => is_editor_write e = true) during /\
    _dirty (model w') = true.
Proof. apply (C10_content_before_dirty false 0 "x" clean). discriminate. Defined.

(** C8, at the input where it fails.  A widget on a shared document is
    disposed while both continuations are waiting.  The readiness
    continuation then changes nothing of the editor and connects nothing;
    the continuation of the connection has no such guard: on the disposed
    widget it sets the editor's identity and selection colour, connects
    the roster handler and prunes the selections. *)
Theorem C8_connected_continuation_unguarded :
  exists w0 w1 w2,
    constructor false 2 (mkOptions empty_model shared_db editor_on_context)
      = Returned w0 /\
    run false style (num := Z) 2 [SelectionsSet "B" [selection]; Dispose] w0
      = Returned w1 /\
    isDisposed w1 = true /\
    step false style (num := Z) 2 ContextReady w1
      = Returned (with_ready_callback false w1) /\
    step false style (num := Z) 2 ModelDBConnected w1 = Returned w2 /\
    uuid (editor w1) = EmptyString /\ uuid (editor w2) = "A" /\
    ISelectionStyle.color (selectionStyle (editor w1)) = "black" /\
    ISelectionStyle.color (selectionStyle (editor w2)) = "red" /\
    collaboratorsChanged_connected w1 = false /\
    collaboratorsChanged_connected w2 = true /\
    selections (editor w1) !! "B" = Some [selection] /\
    selections (editor w2) !! "B" = None.
Proof.
  eexists _, _, _.
  split; [vm_compute; reflexivity|].
  split; [vm_compute; reflexivity|].
  split; [reflexivity|].
  split; [reflexivity|].
  split; [vm_compute; reflexivity|].
  repeat split; vm_compute; reflexivity.
Qed.

End Concrete.

(** * Further properties of the code *)

Section MoreDocumentModel.

Variable notify_unchanged : bool.

(** What an assignment to the document model leaves alone, and what it
    does to the dirty flag. *)
Lemma assign_text_context_flags (s : string) (w : World) :
  let a := assign_text notify_unchanged OfContext s w in
  _readOnly (model a) = _readOnly (model w) /\
  _defaultLang (model a) = _defaultLang (model w) /\
  _dirty (model a) =
    _dirty (model w) || takes_effect notify_unchanged (value_text (model w)) s.
Proof.
  destruct_world w.
  unfold assign_text, sync_editor, store_own, takes_effect, set_dirty,
    triggerStateChange, _onModelStateChanged, _handleDirtyState, push_history.
  cbn. destruct (String.eqb_spec value_text0 s) as [->|_];
    destruct notify_unchanged, editor_model0 as [|old], _dirty0; cbn;
    case_bools; done.
Qed.

(** X1.  [fromString(s)] returns, and [toString()] then returns [s],
    whatever the model held and whether or not the widget listens. *)
Theorem X1_fromString_toString (fuel : nat) (s : string) (w : World) :
  exists w',
    fromString notify_unchanged (S (S fuel)) s w = Returned w' /\
    toString (model w') = s.
Proof.
  rewrite fromString_closed. eexists. split; [reflexivity|].
  apply assign_text_context.
Qed.

(** X2.  [fromString(s)] never changes the read-only flag or the default
    language and never clears the dirty flag: afterwards the model is dirty
    exactly when it was dirty before or the assignment took effect. *)
Theorem X2_fromString_flags (fuel : nat) (s : string) (w : World) :
  exists w',
    fromString notify_unchanged (S (S fuel)) s w = Returned w' /\
    _readOnly (model w') = _readOnly (model w) /\
    _defaultLang (model w') = _defaultLang (model w) /\
    _dirty (model w') =
      _dirty (model w) || takes_effect notify_unchanged (value_text (model w)) s.
Proof.
  rewrite fromString_closed. eexists. split; [reflexivity|].
  apply assign_text_context_flags.
Qed.

(** X3.  Both state setters are idempotent: a second assignment of the same
    value changes nothing and emits nothing. *)
Theorem X3_state_setters_idempotent (b : bool) (w : World) :
  set_dirty b (set_dirty b w) = set_dirty b w /\
  set_readOnly b (set_readOnly b w) = set_readOnly b w.
Proof.
  split.
  - rewrite <- (set_dirty_dirty b w) at 1. apply set_dirty_same.
  - rewrite <- (set_readOnly_readOnly b w) at 1. apply set_readOnly_same.
Qed.

(** X4.  A change of the read-only flag is delivered to the widget's
    state-changed handler, which ignores it: the title class, the dirty
    flag, the text and the editor are as before. *)
Theorem X4_readOnly_leaves_widget_alone (b : bool) (w : World) :
  title_className (set_readOnly b w) = title_className w /\
  _dirty (model (set_readOnly b w)) = _dirty (model w) /\
  value_text (model (set_readOnly b w)) = value_text (model w) /\
  editor (set_readOnly b w) = editor w.
Proof.
  unfold set_readOnly, triggerStateChange, _onModelStateChanged.
  destruct (Bool.eqb b (_readOnly (model w))); [done|].
  cbn [stateChanged_connected record with_model name String.eqb Ascii.eqb Bool.eqb].
  by destruct (stateChanged_connected w).
Qed.

End MoreDocumentModel.

Section TitleClass.

Lemma spaces_succ (s : string) (n : nat) :
  (s +:+ spaces n) +:+ " " = s +:+ spaces (S n).
Proof. cbn [spaces]. apply JSONFacts.append_assoc. Qed.

(** One cycle on a bound widget whose title class has no marker. *)
Lemma dirty_cycle_once (w : World) :
  stateChanged_connected w = true ->
  _dirty (model w) = false ->
  JSString.includes DIRTY_CLASS (title_className w) = false ->
  stateChanged_connected (dirty_cycle w) = true /\
  _dirty (model (dirty_cycle w)) = false /\
  JSString.includes DIRTY_CLASS (title_className (dirty_cycle w)) = false /\
  title_className (dirty_cycle w) = title_className w +:+ " ".
Proof.
  intros Hc Hd Hi. destruct_world w. cbn in Hc, Hd, Hi. subst.
  unfold dirty_cycle, set_dirty, triggerStateChange, _onModelStateChanged,
    _handleDirtyState. cbn.
  change (title_className0 +:+ " " +:+ DIRTY_CLASS)
    with (title_className0 +:+ String " " DIRTY_CLASS).
  rewrite JSStringFacts.replace_first_appended by done.
  repeat split. by apply JSStringFacts.includes_separator.
Qed.

(** X5.  The title class is not restored when the model is saved: every
    dirty-then-clean cycle on a bound widget removes the marker and leaves
    the space that was put before it, so after [n] cycles the class is what
    it was followed by [n] spaces. *)
Theorem X5_title_class_grows (n : nat) (w : World) :
  stateChanged_connected w = true ->
  _dirty (model w) = false ->
  JSString.includes DIRTY_CLASS (title_className w) = false ->
  title_className (Nat.iter n dirty_cycle w) = title_className w +:+ spaces n.
Proof.
  intros Hc Hd Hi.
  assert (stateChanged_connected (Nat.iter n dirty_cycle w) = true /\
          _dirty (model (Nat.iter n dirty_cycle w)) = false /\
          JSString.includes DIRTY_CLASS
            (title_className (Nat.iter n dirty_cycle w)) = false /\
          title_className (Nat.iter n dirty_cycle w)
            = title_className w +:+ spaces n) as (_ & _ & _ & Ht); [|exact Ht].
  induction n as [|n (Hc' & Hd' & Hi' & Ht')].
  - cbn. by rewrite JSONFacts.append_nil_r.
  - rewrite !Nat.iter_succ.
    destruct (dirty_cycle_once _ Hc' Hd' Hi') as (? & ? & ? & Ht'').
    repeat split; try done. rewrite Ht'', Ht'. apply spaces_succ.
Qed.

End TitleClass.

(** ** More facts about JSON *)

Module JSONMoreFacts.
Import JSON.
Import JSStringFacts.
Import JSONFacts.

Lemma skip_ws_all_ws (s : string) :
  all_chars is_ws s = true -> skip_ws s = EmptyString.
Proof.
  induction s as [|c s IH]; [done|]. cbn. destruct (is_ws c); [exact IH|done].
Qed.

Lemma num_char_printable (c : ascii) :
  is_num_char c = true -> is_printable c = true.
Proof. destruct c as [[] [] [] [] [] [] [] []]; by intros. Qed.

Lemma quote_char_printable (c : ascii) :
  all_chars is_printable (quote_char c) = true.
Proof. destruct c as [[] [] [] [] [] [] [] []]; reflexivity. Qed.

Lemma all_chars_weaken (P Q : ascii -> bool) (s : string) :
  (forall c, P c = true -> Q c = true) ->
  all_chars P s = true -> all_chars Q s = true.
Proof.
  intros HPQ. induction s as [|c s IH]; [done|]. cbn.
  intros [Hc Hs]%andb_prop. by rewrite (HPQ c Hc), IH.
Qed.

Lemma quote_printable (s : string) : all_chars is_printable (quote s) = true.
Proof.
  unfold quote. cbn [all_chars]. rewrite all_chars_append.
  assert (all_chars is_printable (quote_chars s) = true) as ->; [|done].
  induction s as [|c s IH]; [done|]. cbn [quote_chars].
  by rewrite all_chars_append, quote_char_printable, IH.
Qed.

Lemma join_printable (close : string) (parts : list string) :
  all_chars is_printable close = true ->
  Forall (fun p => all_chars is_printable p = true) parts ->
  all_chars is_printable (join close parts) = true.
Proof.
  intros Hclose Hparts. induction Hparts as [|p parts Hp _ IH]; [done|].
  destruct parts as [|q parts].
  - by rewrite join_single, all_chars_append, Hp, Hclose.
  - by rewrite join_cons, !all_chars_append, Hp, IH.
Qed.

Section Printable.
Context {num : Type} `{JSNumber num}.

Lemma stringify_printable (v : JSONValue num) :
  all_chars is_printable (stringify v) = true.
Proof.
  induction v as [|b|n|s|l IHl|m IHm] using JSONValue_induction.
  - reflexivity.
  - by destruct b.
  - cbn [stringify]. apply (all_chars_weaken is_num_char); [|apply num_to_string_chars].
    apply num_char_printable.
  - apply quote_printable.
  - cbn [stringify]. rewrite all_chars_append.
    rewrite join_printable; [done|done|]. by apply Forall_map.
  - cbn [stringify]. rewrite all_chars_append.
    rewrite join_printable; [done|done|]. apply Forall_map.
    eapply Forall_impl; [exact IHm|]. intros [k x] Hx. cbn in *.
    by rewrite !all_chars_append, quote_printable, Hx.
Qed.

End Printable.

Section ParsedValues.
Context {num : Type} `{JSNumber num}.










End ParsedValues.

End JSONMoreFacts.

Section MoreStructuredContent.

Variable notify_unchanged : bool.
Context {num : Type} `{JSON.JSNumber num}.

(** X6.  A buffer that holds white space only, and at least one character
    of it, is not read as null: [toJSON] raises a syntax error.  Only the
    empty buffer is replaced by [null] before parsing. *)
Theorem X6_toJSON_blank_buffer (m : DocumentModel) :
  value_text m <> EmptyString ->
  JSON.all_chars JSON.is_ws (value_text m) = true ->
  toJSON m = Raised SyntaxError.
Proof.
  intros Hne Hws. rewrite toJSON_nonempty by done.
  unfold JSON.parse. by rewrite JSONMoreFacts.skip_ws_all_ws.
Qed.

(** X7.  The text [fromJSON] leaves in the buffer has no control character:
    it is one line, whatever strings the value holds. *)
Theorem X7_fromJSON_single_line (fuel : nat) (v : JSON.JSONValue num) (w : World) :
  exists w',
    fromJSON notify_unchanged (S (S fuel)) v w = Returned w' /\
    JSON.all_chars is_printable (value_text (model w')) = true.
Proof.
  unfold fromJSON. rewrite fromString_closed. eexists. split; [reflexivity|].
  rewrite assign_text_context. apply JSONMoreFacts.stringify_printable.
Qed.

End MoreStructuredContent.

Section Normalisation.

Variable notify_unchanged : bool.
Context {num : Type} `{JSON.JSNumber num}.


End Normalisation.

Section Runs.

Variable notify_unchanged : bool.
Variable defaultSelectionStyle : ISelectionStyle.t.
Context {num : Type} `{JSON.JSNumber num}.

Lemma step_closed (fuel : nat) (i : Input) (w : World) :
  step notify_unchanged defaultSelectionStyle (S (S fuel)) i w =
  Returned (next notify_unchanged defaultSelectionStyle w i).
Proof.
  destruct i; cbn [step next]; unfold fromJSON;
    rewrite ?fromString_closed; try reflexivity.
  - destruct (ready_callback w); [|done]. by rewrite onContextReady_closed.
  - by destruct (connected_callback w).
  - by destruct (collaborators (modelDB w)).
Qed.

Lemma run_closed (fuel : nat) (inputs : list Input) (w : World) :
  run notify_unchanged defaultSelectionStyle (S (S fuel)) inputs w =
  Returned (fold_left (next notify_unchanged defaultSelectionStyle) inputs w).
Proof.
  revert w. induction inputs as [|i inputs IH]; intros w; [done|].
  cbn [run fold_left]. rewrite step_closed. cbn [mbind Outcome_bind]. apply IH.
Qed.

Lemma constructor_constructed (fuel : nat) (options : IOptions) :
  constructor notify_unchanged (S (S fuel)) options =
  Returned (constructed notify_unchanged options).
Proof. unfold constructor. by rewrite value_set_text_closed. Qed.

(** A property kept by every input holds after a run. *)
Lemma fold_next_invariant (P : World -> Prop) (inputs : list Input) (w : World) :
  (forall i w, i ∈ inputs -> P w -> P (next notify_unchanged defaultSelectionStyle w i)) ->
  P w -> P (fold_left (next notify_unchanged defaultSelectionStyle) inputs w).
Proof.
  revert w. induction inputs as [|i inputs IH]; intros w Hstep Hw; [done|].
  cbn [fold_left]. apply IH.
  - intros j w' Hj. apply Hstep. by apply list_elem_of_further.
  - apply Hstep; [apply list_elem_of_here|done].
Qed.

End Runs.

Section MoreCollaboration.

Variable defaultSelectionStyle : ISelectionStyle.t.

(** The loop of the roster handler touches the selections only. *)
Lemma prune_fold_frame (c : Collaborators) (keys : list string) (w : World) :
  exists sel,
    fold_left (prune_step c) keys w =
    with_editor (editor_with_selections sel (editor w)) w.
Proof.
  revert w. induction keys as [|k keys IH]; intros w.
  - exists (selections (editor w)). by destruct w as [? ? [] ? ? ? ? ? ? ? ? ?].
  - cbn [fold_left]. destruct (IH (prune_step c w k)) as (sel & ->).
    exists sel. unfold prune_step. by destruct (has c k).
Qed.

(** Keys the roster has are left alone. *)
Lemma prune_fold_kept (c : Collaborators) (keys : list string) (w : World) :
  Forall (fun k => has c k = true) keys -> fold_left (prune_step c) keys w = w.
Proof.
  intros Hk. revert w. induction Hk as [|k keys Hk _ IH]; intros w; [done|].
  cbn [fold_left]. unfold prune_step at 2. rewrite Hk. apply IH.
Qed.

Lemma pruned_lookup (c : Collaborators) (w : World) (key : string) :
  selections
    (editor (fold_left (prune_step c) (map_to_list (selections (editor w))).*1 w))
    !! key =
  if has c key then selections (editor w) !! key else None.
Proof.
  rewrite prune_fold_lookup.
  destruct (has c key); cbn; [by rewrite andb_false_r|].
  rewrite andb_true_r. case_bool_decide as Hin; [done|].
  destruct (selections (editor w) !! key) as [s|] eqn:Hs; [|done].
  exfalso. apply Hin. apply list_elem_of_fmap. exists (key, s). split; [done|].
  by apply elem_of_map_to_list.
Qed.

(** X9.  The roster handler only removes selections, and running it again
    changes nothing. *)
Theorem X9_pruning_idempotent (w : World) :
  selections (editor (_onCollaboratorsChanged w)) ⊆ selections (editor w) /\
  _onCollaboratorsChanged (_onCollaboratorsChanged w) = _onCollaboratorsChanged w.
Proof.
  unfold _onCollaboratorsChanged at 1 3 4.
  destruct (collaborators (modelDB w)) as [c|] eqn:Hc.
  - change (fold_left _ ?l ?w0) with (fold_left (prune_step c) l w0).
    split.
    + apply map_subseteq_spec. intros k x. rewrite pruned_lookup.
      by destruct (has c k).
    + destruct (prune_fold_frame c (map_to_list (selections (editor w))).*1 w)
        as (sel & Hsel).
      assert (forall k, sel !! k = if has c k then selections (editor w) !! k else None)
        as Hlook.
      { intros k. rewrite <- pruned_lookup, Hsel. reflexivity. }
      rewrite Hsel. unfold _onCollaboratorsChanged. cbn [modelDB with_editor].
      rewrite Hc.
      change (fold_left _ ?l ?w0) with (fold_left (prune_step c) l w0).
      apply prune_fold_kept. apply Forall_forall. intros k Hk.
      apply list_elem_of_fmap in Hk as ([k' x] & -> & Hk).
      apply elem_of_map_to_list in Hk. cbn in Hk. rewrite Hlook in Hk. cbn.
      by destruct (has c k').
  - split; [done|]. unfold _onCollaboratorsChanged. by rewrite Hc.
Qed.

(** X10.  When the shared session connects and there is a roster, the
    editor takes the session identifier of the local collaborator, the
    default selection style with the collaborator's colour, the roster
    handler is connected, and no selection of a key outside the roster is
    left; the model and the title are not touched. *)
Theorem X10_onConnected (c : Collaborators) (w : World) :
  collaborators (modelDB w) = Some c ->
  let w' := onConnected defaultSelectionStyle w in
  uuid (editor w') = ICollaborator.sessionId (localCollaborator c) /\
  selectionStyle (editor w') =
    ISelectionStyle.mk (ISelectionStyle.className defaultSelectionStyle)
      (ISelectionStyle.displayName defaultSelectionStyle)
      (ICollaborator.color (localCollaborator c)) /\
  collaboratorsChanged_connected w' = true /\
  (forall key, is_Some (selections (editor w') !! key) -> has c key = true) /\
  (forall key, has c key = true ->
     selections (editor w') !! key = selections (editor w) !! key) /\
  model w' = model w /\ title_className w' = title_className w.
Proof.
  intros Hc. unfold onConnected. rewrite Hc. cbn zeta.
  unfold _onCollaboratorsChanged. cbn [modelDB with_editor
    with_collaboratorsChanged_connected]. rewrite Hc.
  change (fold_left _ ?l ?w0) with (fold_left (prune_step c) l w0).
  match goal with
  | |- context [fold_left (prune_step c) ?l ?w0] =>
      destruct (prune_fold_frame c l w0) as (sel & Hsel);
      pose proof (fun k => pruned_lookup c w0 k) as Hlook
  end.
  rewrite Hsel in *. cbn in Hlook |- *.
  repeat split.
  - intros key [x Hx]. rewrite Hlook in Hx. by destruct (has c key).
  - intros key Hk. by rewrite Hlook, Hk.
Qed.

End MoreCollaboration.

Section MoreBinding.

Variable notify_unchanged : bool.
Variable defaultSelectionStyle : ISelectionStyle.t.
Context {num : Type} `{JSON.JSNumber num}.

Ltac unfold_program :=
  unfold next, ready_effect, constructed, fresh, assign_text, sync_editor, store_own,
    takes_effect, set_dirty, set_readOnly, triggerStateChange, _onModelStateChanged,
    _handleDirtyState, clearHistory, push_history, dispose, editor_text, toString.

(** What an assignment to the editor's buffer does, seen from outside. *)
Lemma assign_text_editor_frame (w : World) :
  let a := assign_text notify_unchanged OfEditor (value_text (model w)) w in
  editor_text a = value_text (model a) /\
  value_text (model a) = value_text (model w) /\
  modelDB a = modelDB w /\
  title_className a = (if stateChanged_connected w
                       then title_className a else title_className w) /\
  isDisposed a = isDisposed w /\
  ready_resolved a = ready_resolved w /\
  stateChanged_connected a = stateChanged_connected w /\
  contentChanged_connected a = contentChanged_connected w /\
  collaboratorsChanged_connected a = collaboratorsChanged_connected w /\
  ready_callback a = ready_callback w /\
  connected_callback a = connected_callback w /\
  buffer_writes a = S (buffer_writes w) /\
  (editor_model (editor w) = ContextModel -> editor_model (editor a) = ContextModel).
Proof.
  destruct_world w. unfold_program. unfold buffer_writes.
  cbn. destruct editor_model0 as [|old], notify_unchanged; cbn;
    rewrite ?String.eqb_refl; cbn; case_bools;
    rewrite ?List.filter_app, ?length_app; cbn; repeat split; try done; try lia.
  all: by destruct (String.eqb_spec old value_text0).
Qed.

(** What an assignment to the document model does, seen from outside. *)
Lemma assign_text_context_frame (s : string) (w : World) :
  let a := assign_text notify_unchanged OfContext s w in
  modelDB a = modelDB w /\
  isDisposed a = isDisposed w /\
  ready_resolved a = ready_resolved w /\
  stateChanged_connected a = stateChanged_connected w /\
  contentChanged_connected a = contentChanged_connected w /\
  collaboratorsChanged_connected a = collaboratorsChanged_connected w /\
  ready_callback a = ready_callback w /\
  connected_callback a = connected_callback w /\
  (stateChanged_connected w = false -> title_className a = title_className w) /\
  (contentChanged_connected w = false ->
     editor_model (editor a) = editor_model (editor w)) /\
  (editor_model (editor w) = ContextModel ->
     editor_model (editor a) = ContextModel /\ buffer_writes a = buffer_writes w) /\
  ((contentChanged_connected w = true -> editor_text w = value_text (model w)) ->
   contentChanged_connected w = true -> editor_text a = value_text (model a)).
Proof.
  destruct_world w. unfold_program. unfold buffer_writes.
  cbn. destruct editor_model0 as [|old], notify_unchanged,
    (String.eqb_spec value_text0 s), contentChanged_connected0; cbn;
    case_bools; rewrite ?List.filter_app, ?length_app; cbn;
    repeat split; try done; try lia; intros; try done; try lia.
  all: try (symmetry; tauto). all: try tauto.
Qed.

Lemma set_dirty_outside (b : bool) (w : World) :
  editor (set_dirty b w) = editor w /\
  value_text (model (set_dirty b w)) = value_text (model w) /\
  modelDB (set_dirty b w) = modelDB w /\
  isDisposed (set_dirty b w) = isDisposed w /\
  ready_resolved (set_dirty b w) = ready_resolved w /\
  stateChanged_connected (set_dirty b w) = stateChanged_connected w /\
  contentChanged_connected (set_dirty b w) = contentChanged_connected w /\
  ready_callback (set_dirty b w) = ready_callback w /\
  buffer_writes (set_dirty b w) = buffer_writes w /\
  (stateChanged_connected w = false ->
     title_className (set_dirty b w) = title_className w).
Proof.
  destruct_world w. unfold_program. unfold buffer_writes. cbn.
  destruct (Bool.eqb b _dirty0); [done|]. cbn.
  destruct stateChanged_connected0, b; cbn;
    rewrite ?List.filter_app, ?length_app; cbn; repeat split; try done; lia.
Qed.

Lemma set_readOnly_outside (b : bool) (w : World) :
  editor (set_readOnly b w) = editor w /\
  value_text (model (set_readOnly b w)) = value_text (model w) /\
  modelDB (set_readOnly b w) = modelDB w /\
  isDisposed (set_readOnly b w) = isDisposed w /\
  ready_resolved (set_readOnly b w) = ready_resolved w /\
  stateChanged_connected (set_readOnly b w) = stateChanged_connected w /\
  contentChanged_connected (set_readOnly b w) = contentChanged_connected w /\
  ready_callback (set_readOnly b w) = ready_callback w /\
  buffer_writes (set_readOnly b w) = buffer_writes w /\
  title_className (set_readOnly b w) = title_className w.
Proof.
  destruct_world w. unfold_program. unfold buffer_writes. cbn.
  destruct (Bool.eqb b _readOnly0); [done|]. cbn.
  destruct stateChanged_connected0; cbn;
    rewrite ?List.filter_app, ?length_app; cbn; repeat split; try done; lia.
Qed.

(** The roster handler and the continuation of the connection leave the
    model, the text buffers, the title and the other connections alone. *)
Lemma onCollaboratorsChanged_outside (w : World) :
  exists sel,
    _onCollaboratorsChanged w = with_editor (editor_with_selections sel (editor w)) w.
Proof.
  unfold _onCollaboratorsChanged. destruct (collaborators (modelDB w)) as [c|].
  - change (fold_left _ ?l ?w0) with (fold_left (prune_step c) l w0).
    apply prune_fold_frame.
  - exists (selections (editor w)). by destruct w as [? ? [] ? ? ? ? ? ? ? ? ?].
Qed.

Lemma onConnected_outside (w : World) :
  let w' := onConnected defaultSelectionStyle w in
  editor_model (editor w') = editor_model (editor w) /\
  model w' = model w /\ trace w' = trace w /\
  title_className w' = title_className w /\
  isDisposed w' = isDisposed w /\
  ready_resolved w' = ready_resolved w /\
  stateChanged_connected w' = stateChanged_connected w /\
  contentChanged_connected w' = contentChanged_connected w /\
  ready_callback w' = ready_callback w.
Proof.
  unfold onConnected. destruct (collaborators (modelDB w)); [|done]. cbn zeta.
  match goal with
  | |- context [_onCollaboratorsChanged ?w0] =>
      destruct (onCollaboratorsChanged_outside w0) as (sel & ->)
  end.
  done.
Qed.

Lemma next_collaboration (w : World) (i : Input) :
  match i with
  | ModelDBConnected | RosterChanged _ | SelectionsSet _ _ => True
  | _ => False
  end ->
  outside (next notify_unchanged defaultSelectionStyle w i) = outside w.
Proof.
  destruct i; try done; intros _; cbn [next].
  - destruct (connected_callback w) eqn:Hcc; [|done].
    destruct (onConnected_outside (with_connected_callback false w))
      as (He & Hm & Ht & Hc & Hd & Hr & Hs & Hcn & Hrc).
    unfold outside, buffer_writes. by rewrite He, Hm, Ht, Hc, Hd, Hr, Hs, Hcn, Hrc.
  - destruct (collaborators (modelDB w)); [|done].
    cbn zeta. destruct (collaboratorsChanged_connected _); [|done].
    match goal with
    | |- context [_onCollaboratorsChanged ?w0] =>
        destruct (onCollaboratorsChanged_outside w0) as (sel & ->)
    end.
    done.
Qed.

Lemma constructed_facts (options : IOptions) :
  let w0 := constructed notify_unchanged options in
  editor_text w0 = toString (model w0) /\
  toString (model w0) = toString (context_model options) /\
  buffer_writes w0 = 1 /\
  title_className w0 = EmptyString /\
  stateChanged_connected w0 = false /\
  contentChanged_connected w0 = false /\
  collaboratorsChanged_connected w0 = false /\
  ready_callback w0 = true /\
  connected_callback w0 = isCollaborative (context_modelDB options) /\
  ready_resolved w0 = false /\
  isDisposed w0 = false.
Proof.
  unfold constructed.
  destruct (assign_text_editor_frame (fresh options))
    as (Hs & Hm & Hdb & Ht & Hd & Hr & Hsc & Hcc & Hcl & _ & Hcb & Hb & _).
  change (value_text (model (fresh options))) with (toString (context_model options)) in *.
  remember (assign_text notify_unchanged OfEditor (toString (context_model options))
              (fresh options)) as a eqn:Ha.
  clear Ha. unfold fresh, buffer_writes in Hdb, Ht, Hd, Hr, Hsc, Hcc, Hcl, Hcb, Hb.
  cbn [modelDB title_className isDisposed ready_resolved stateChanged_connected
         contentChanged_connected collaboratorsChanged_connected connected_callback
         trace List.filter length] in Hdb, Ht, Hd, Hr, Hsc, Hcc, Hcl, Hcb, Hb.
  fold (buffer_writes a) in Hb.
  cbn [modelDB with_ready_callback]. rewrite Hdb.
  unfold editor_text, toString in *.
  destruct (isCollaborative (context_modelDB options)); cbn;
    rewrite ?Hs, ?Hm; repeat split; done.
Qed.

(** X11.  The constructor returns a widget that is not yet bound: the
    editor holds the model's current text, one buffer write was made, the
    title class is empty, no handler is connected, the readiness
    continuation is waiting, and the continuation of the connection is
    waiting exactly when the model database is collaborative. *)
Theorem X11_constructor (fuel : nat) (options : IOptions) :
  exists w0,
    constructor notify_unchanged (S (S fuel)) options = Returned w0 /\
    editor_text w0 = toString (model w0) /\
    toString (model w0) = toString (context_model options) /\
    buffer_writes w0 = 1 /\
    title_className w0 = EmptyString /\
    stateChanged_connected w0 = false /\
    contentChanged_connected w0 = false /\
    collaboratorsChanged_connected w0 = false /\
    ready_callback w0 = true /\
    connected_callback w0 = isCollaborative (context_modelDB options) /\
    ready_resolved w0 = false /\
    isDisposed w0 = false.
Proof.
  rewrite constructor_constructed. eexists. split; [reflexivity|].
  apply constructed_facts.
Qed.

Lemma outside_fields (w' w : World) :
  outside w' = outside w ->
  editor_model (editor w') = editor_model (editor w) /\
  value_text (model w') = value_text (model w) /\
  title_className w' = title_className w /\
  isDisposed w' = isDisposed w /\
  ready_resolved w' = ready_resolved w /\
  stateChanged_connected w' = stateChanged_connected w /\
  contentChanged_connected w' = contentChanged_connected w /\
  ready_callback w' = ready_callback w /\
  buffer_writes w' = buffer_writes w.
Proof. unfold outside. by intros [= -> -> -> -> -> -> -> -> ->]. Qed.

(** What the readiness handler does to a widget that is not disposed. *)
Lemma ready_effect_outside (w : World) :
  isDisposed w = false ->
  let r := ready_effect notify_unchanged w in
  editor_text r = value_text (model r) /\
  value_text (model r) = value_text (model w) /\
  isDisposed r = false /\
  ready_resolved r = true /\
  stateChanged_connected r = true /\
  contentChanged_connected r = true /\
  ready_callback r = ready_callback w /\
  buffer_writes r = S (buffer_writes w) /\
  (editor_model (editor w) = ContextModel -> editor_model (editor r) = ContextModel).
Proof.
  intros Hd. unfold ready_effect. rewrite Hd. cbn zeta.
  destruct (assign_text_editor_frame w)
    as (Hs & Hm & _ & _ & Hd' & _ & _ & _ & _ & Hrc & _ & Hb & He).
  unfold toString.
  remember (assign_text notify_unchanged OfEditor (value_text (model w)) w) as a eqn:Ha.
  clear Ha. unfold _handleDirtyState, clearHistory, editor_text, buffer_writes in *.
  destruct (_dirty (model (with_editor (editor_with_history [] (editor a)) a)));
    cbn; rewrite ?Hd; repeat split; try done; congruence.
Qed.

(** X12.  Until the readiness continuation runs the widget does not follow
    the model: whatever else happens after construction, the title class is
    still empty, the two model handlers are not connected, the widget's
    ready promise is not resolved, and the editor's model is the one it was
    constructed with (a buffer of its own keeps the text of the first
    seed). *)
Theorem X12_not_bound_before_ready (fuel : nat) (options : IOptions)
    (inputs : list Input) :
  Forall (fun i => i <> ContextReady) inputs ->
  exists w0 w,
    constructor notify_unchanged (S (S fuel)) options = Returned w0 /\
    run notify_unchanged defaultSelectionStyle (S (S fuel)) inputs w0 = Returned w /\
    title_className w = EmptyString /\
    stateChanged_connected w = false /\
    contentChanged_connected w = false /\
    ready_resolved w = false /\
    editor_model (editor w) = editor_model (editor w0).
Proof.
  intros Hin. rewrite constructor_constructed. eexists _, _.
  split; [reflexivity|]. rewrite run_closed. split; [reflexivity|].
  destruct (constructed_facts options) as (_ & _ & _ & Ht0 & Hs0 & Hc0 & _ & _ & _ & Hr0 & _).
  remember (constructed notify_unchanged options) as w0 eqn:Hw0. clear Hw0.
  remember (editor_model (editor w0)) as em eqn:Hem0.
  apply (fold_next_invariant notify_unchanged defaultSelectionStyle
           (fun w => title_className w = EmptyString /\ stateChanged_connected w = false /\
                     contentChanged_connected w = false /\ ready_resolved w = false /\
                     editor_model (editor w) = em)); [|done].
  intros i w Hi (Ht & Hsc & Hcc & Hrr & Hem).
  rewrite Forall_forall in Hin. specialize (Hin i Hi).
  destruct i as [| |r|key s|b|b|s|v|].
  - done.
  - destruct (outside_fields _ _ (next_collaboration w ModelDBConnected I))
      as (-> & _ & -> & _ & -> & -> & -> & _ & _); done.
  - destruct (outside_fields _ _ (next_collaboration w (RosterChanged r) I))
      as (-> & _ & -> & _ & -> & -> & -> & _ & _); done.
  - destruct (outside_fields _ _ (next_collaboration w (SelectionsSet key s) I))
      as (-> & _ & -> & _ & -> & -> & -> & _ & _); done.
  - cbn [next]. destruct (set_dirty_outside b w)
      as (-> & _ & _ & _ & -> & -> & -> & _ & _ & ->); done.
  - cbn [next]. destruct (set_readOnly_outside b w)
      as (-> & _ & _ & _ & -> & -> & -> & _ & _ & ->); done.
  - cbn [next]. destruct (assign_text_context_frame s w)
      as (_ & _ & -> & -> & -> & _ & _ & _ & -> & -> & _); done.
  - cbn [next]. destruct (assign_text_context_frame (JSON.stringify v) w)
      as (_ & _ & -> & -> & -> & _ & _ & _ & -> & -> & _); done.
  - cbn [next]. unfold dispose. destruct (isDisposed w); [done|]. cbn.
    by rewrite Hrr, Hem, Ht.
Qed.

Lemma editor_text_outside (w' w : World) :
  editor_model (editor w') = editor_model (editor w) ->
  value_text (model w') = value_text (model w) ->
  editor_text w' = editor_text w.
Proof. unfold editor_text. by intros -> ->. Qed.

(** X13.  Once the content-changed handler is connected, the editor's text
    is the model's serialised text after everything that happens to the
    model: the run returns, and at its end the two texts are equal whenever
    the handler is connected. *)
Theorem X13_editor_follows_model (fuel : nat) (options : IOptions)
    (inputs : list Input) :
  exists w0 w,
    constructor notify_unchanged (S (S fuel)) options = Returned w0 /\
    run notify_unchanged defaultSelectionStyle (S (S fuel)) inputs w0 = Returned w /\
    (contentChanged_connected w = true -> editor_text w = toString (model w)).
Proof.
  rewrite constructor_constructed. eexists _, _.
  split; [reflexivity|]. rewrite run_closed. split; [reflexivity|].
  unfold toString.
  apply (fold_next_invariant notify_unchanged defaultSelectionStyle
           (fun w => contentChanged_connected w = true ->
                     editor_text w = value_text (model w))).
  - intros i w _ Hj. destruct i as [| |r|key s|b|b|s|v|].
    + cbn [next]. destruct (ready_callback w); [|done].
      destruct (isDisposed w) eqn:Hd.
      * unfold ready_effect. cbn [isDisposed with_ready_callback]. by rewrite Hd.
      * intros _. by apply (ready_effect_outside (with_ready_callback false w)).
    + destruct (outside_fields _ _ (next_collaboration w ModelDBConnected I))
        as (He & Hv & _ & _ & _ & _ & -> & _ & _).
      by rewrite (editor_text_outside _ _ He Hv), Hv.
    + destruct (outside_fields _ _ (next_collaboration w (RosterChanged r) I))
        as (He & Hv & _ & _ & _ & _ & -> & _ & _).
      by rewrite (editor_text_outside _ _ He Hv), Hv.
    + destruct (outside_fields _ _ (next_collaboration w (SelectionsSet key s) I))
        as (He & Hv & _ & _ & _ & _ & -> & _ & _).
      by rewrite (editor_text_outside _ _ He Hv), Hv.
    + cbn [next]. destruct (set_dirty_outside b w)
        as (He & Hv & _ & _ & _ & _ & -> & _).
      rewrite (editor_text_outside (set_dirty b w) w), Hv; [done| |done].
      by rewrite He.
    + cbn [next]. destruct (set_readOnly_outside b w)
        as (He & Hv & _ & _ & _ & _ & -> & _).
      rewrite (editor_text_outside (set_readOnly b w) w), Hv; [done| |done].
      by rewrite He.
    + cbn [next]. destruct (assign_text_context_frame s w)
        as (_ & _ & _ & _ & -> & _ & _ & _ & _ & _ & _ & Hsync). by apply Hsync.
    + cbn [next]. destruct (assign_text_context_frame (JSON.stringify v) w)
        as (_ & _ & _ & _ & -> & _ & _ & _ & _ & _ & _ & Hsync). by apply Hsync.
    + cbn [next]. unfold dispose. destruct (isDisposed w); [done|]. done.
  - destruct (constructed_facts options) as (_ & _ & _ & _ & _ & -> & _). done.
Qed.

Lemma constructed_editor_model (options : IOptions) :
  editor_model (factory options) = ContextModel ->
  editor_model (editor (constructed notify_unchanged options)) = ContextModel.
Proof.
  intros He. unfold constructed.
  destruct (assign_text_editor_frame (fresh options))
    as (_ & _ & Hdb & _ & _ & _ & _ & _ & _ & _ & _ & _ & Hem).
  change (value_text (model (fresh options))) with (toString (context_model options)) in *.
  remember (assign_text notify_unchanged OfEditor (toString (context_model options))
              (fresh options)) as a eqn:Ha.
  clear Ha. specialize (Hem He).
  by destruct (isCollaborative (modelDB (with_ready_callback true a))).
Qed.

(** X14.  When the editor edits the context's model, as the constructor
    wires it, the content-changed handler never writes: after any run the
    widget has made one buffer write (the constructor's seed) if readiness
    was not handled, and two (with the re-seed) if it was. *)
Theorem X14_no_echo_writes (fuel : nat) (options : IOptions) (inputs : list Input) :
  editor_model (factory options) = ContextModel ->
  exists w0 w,
    constructor notify_unchanged (S (S fuel)) options = Returned w0 /\
    run notify_unchanged defaultSelectionStyle (S (S fuel)) inputs w0 = Returned w /\
    buffer_writes w = (if ready_resolved w then 2 else 1).
Proof.
  intros He. rewrite constructor_constructed. eexists _, _.
  split; [reflexivity|]. rewrite run_closed. split; [reflexivity|].
  apply (fold_next_invariant notify_unchanged defaultSelectionStyle
           (fun w => editor_model (editor w) = ContextModel /\
                     buffer_writes w = (if ready_resolved w then 2 else 1) /\
                     (ready_callback w = true -> ready_resolved w = false))).
  - intros i w _ (Hem & Hb & Hrc). destruct i as [| |r|key s|b|b|s|v|].
    + cbn [next]. destruct (ready_callback w) eqn:Hcb; [|by rewrite Hcb].
      specialize (Hrc eq_refl). rewrite Hrc in Hb.
      destruct (isDisposed w) eqn:Hd.
      * unfold ready_effect. cbn [isDisposed with_ready_callback]. rewrite Hd.
        cbn. by rewrite Hrc.
      * destruct (ready_effect_outside (with_ready_callback false w) Hd)
          as (_ & _ & _ & -> & _ & _ & -> & -> & Hem').
        split; [by apply Hem'|]. split; [|done].
        change (buffer_writes (with_ready_callback false w)) with (buffer_writes w).
        by rewrite Hb.
    + destruct (outside_fields _ _ (next_collaboration w ModelDBConnected I))
        as (-> & _ & _ & _ & -> & _ & _ & -> & ->). done.
    + destruct (outside_fields _ _ (next_collaboration w (RosterChanged r) I))
        as (-> & _ & _ & _ & -> & _ & _ & -> & ->). done.
    + destruct (outside_fields _ _ (next_collaboration w (SelectionsSet key s) I))
        as (-> & _ & _ & _ & -> & _ & _ & -> & ->). done.
    + cbn [next]. destruct (set_dirty_outside b w)
        as (-> & _ & _ & _ & -> & _ & _ & -> & -> & _). done.
    + cbn [next]. destruct (set_readOnly_outside b w)
        as (-> & _ & _ & _ & -> & _ & _ & -> & -> & _). done.
    + cbn [next]. destruct (assign_text_context_frame s w)
        as (_ & _ & -> & _ & _ & _ & -> & _ & _ & _ & Hal & _).
      destruct (Hal Hem) as [-> ->]. done.
    + cbn [next]. destruct (assign_text_context_frame (JSON.stringify v) w)
        as (_ & _ & -> & _ & _ & _ & -> & _ & _ & _ & Hal & _).
      destruct (Hal Hem) as [-> ->]. done.
    + cbn [next]. unfold dispose. destruct (isDisposed w); [done|]. done.
  - destruct (constructed_facts options) as (_ & _ & -> & _ & _ & _ & _ & _ & _ & -> & _).
    split; [by apply constructed_editor_model|]. done.
Qed.

End MoreBinding.

(** ** The label of the file editor *)

Module FileEditorFacts.
Import JSString JSStringFacts FileEditor.

Lemma split_nonempty (c : ascii) (s : string) : split c s <> [].
Proof.
  induction s as [|x s IH]; [done|]. cbn [split].
  destruct (Ascii.eqb x c); [done|]. by destruct (split c s).
Qed.

(** A text without the separator is one piece. *)
Lemma split_lacks (c : ascii) (s : string) :
  lacks c s = true -> split c s = [s].
Proof.
  induction s as [|x s IH]; [done|]. cbn [lacks split]. intros Hl.
  apply andb_prop in Hl as [Hx Hs]. destruct (Ascii.eqb x c); [done|].
  by rewrite (IH Hs).
Qed.

(** The pieces on the two sides of a separator. *)
Lemma split_app (c : ascii) (a b : string) :
  split c (a +:+ String c b) = split c a ++ split c b.
Proof.
  induction a as [|x a IH].
  - rewrite append_nil. cbn [split]. by rewrite Ascii.eqb_refl.
  - rewrite append_cons. cbn [split]. destruct (Ascii.eqb x c).
    + by rewrite IH.
    + rewrite IH. pose proof (split_nonempty c a) as Hne.
      by destruct (split c a).
Qed.

Lemma pop_split_local (c : ascii) (local : string) :
  lacks c local = true -> pop (split c local) = Some local.
Proof. intros Hl. by rewrite (split_lacks c local Hl). Qed.

Lemma pop_split_drive (c : ascii) (drive local : string) :
  lacks c local = true -> pop (split c (drive +:+ String c local)) = Some local.
Proof.
  intros Hl. unfold pop. rewrite split_app, last_app.
  by rewrite (split_lacks c local Hl).
Qed.

(** Every path is a text without colon, alone or after a prefix and a
    colon. *)
Lemma path_decompose (path : string) :
  exists (drive : option string) (local : string),
    lacks ":" local = true /\
    path = match drive with
           | Some d => d +:+ String ":" local
           | None => local
           end.
Proof.
  induction path as [|x path (drive & local & Hl & ->)].
  - by exists None, EmptyString.
  - destruct drive as [d|].
    + by exists (Some (String x d)), local.
    + destruct (Ascii.eqb x ":") eqn:Hx.
      * apply Ascii.eqb_eq in Hx as ->. by exists (Some EmptyString), local.
      * exists None, (String x local). cbn [lacks]. by rewrite Hx, Hl.
Qed.

End FileEditorFacts.

Section Label.

Import JSString FileEditor FileEditorFacts.

Variable basename : string -> string.
Variable getMimeTypeByFilePath : string -> string.

(** X15.  The label of a file editor is the base name of what follows the
    last colon of the path (of the whole path when it has no colon), so a
    drive prefix never shows in it; the mime type is asked for the whole
    path.  Every path has one of the two forms ([path_decompose]), so the
    handler always returns: [pop()] after [split] is never [undefined]. *)
Theorem X15_label_drops_drive (drive : option string) (local : string)
    (fe : FileEditor.t) :
  lacks ":" local = true ->
  let path := match drive with
              | Some d => d +:+ String ":" local
              | None => local
              end in
  _onPathChanged basename getMimeTypeByFilePath path fe
  = Some (FileEditor.mk (getMimeTypeByFilePath path) (basename local)).
Proof.
  intros Hl path. unfold _onPathChanged, path. destruct drive as [d|].
  - by rewrite (pop_split_drive ":" d local Hl).
  - by rewrite (pop_split_local ":" local Hl).
Qed.

End Label.

(** ** Widget factories *)

Section FactoryFacts.

Variables T U : Type.
Variable createNewWidget : U -> T.

Lemma slice_lookup (a : nat) (h : Heap) (l : list string) :
  h !! a = Some l ->
  JSArray.slice a h = Some (length h, h ++ [l]).
Proof. intros Hl. unfold JSArray.slice. by rewrite Hl. Qed.

(** A new factory holds copies of the two arrays of its options. *)
Lemma constructor_private (options : IWidgetFactoryOptions.t) (h0 : Heap)
    (held0 : list nat) :
  IWidgetFactoryOptions.fileTypes options < length h0 ->
  (forall d, IWidgetFactoryOptions.defaultFor options = Some d -> d < length h0) ->
  Forall (fun a => a < length h0) held0 ->
  exists (f : ABCWidgetFactory.t T) h1 lft ldf,
    ABCWidgetFactory.constructor options h0 = Some (f, h1) /\
    h0 !! IWidgetFactoryOptions.fileTypes options = Some lft /\
    match IWidgetFactoryOptions.defaultFor options with
    | Some d => h0 !! d
    | None => Some []
    end = Some ldf /\
    private_arrays (ABCWidgetFactory._fileTypes f) (ABCWidgetFactory._defaultFor f)
      lft ldf (ABCWidgetFactory.mkSession f h1 held0 []) /\
    ABCWidgetFactory._readOnly f
    = default false (IWidgetFactoryOptions.readOnly options) /\
    ABCWidgetFactory._modelName f
    = string_or (IWidgetFactoryOptions.modelName options) "text" /\
    ABCWidgetFactory._isDisposed f = false /\
    ABCWidgetFactory._widgetCreated f = [].
Proof.
  unfold Heap in *. intros Hft Hdf Hheld. unfold ABCWidgetFactory.constructor.
  destruct (lookup_lt_is_Some_2 h0 _ Hft) as [lft Hlft].
  assert (exists ldf,
             match IWidgetFactoryOptions.defaultFor options with
             | Some d => h0 !! d
             | None => Some []
             end = Some ldf /\
             match IWidgetFactoryOptions.defaultFor options with
             | Some a => JSArray.slice a h0
             | None => Some (JSArray.empty h0)
             end = Some (length h0, h0 ++ [ldf])) as (ldf & Hldf & ->).
  { destruct (IWidgetFactoryOptions.defaultFor options) as [d|].
    - destruct (lookup_lt_is_Some_2 h0 d (Hdf d eq_refl)) as [ldf Hd].
      exists ldf. split; [done|]. by apply slice_lookup.
    - by exists []. }
  cbn. rewrite (slice_lookup _ (h0 ++ [ldf]) lft).
  2:{ unfold Heap in *. by rewrite lookup_app_l. }
  cbn. eexists _, _, lft, ldf. split; [reflexivity|].
  split; [done|]. split; [done|]. split; [|by destruct (IWidgetFactoryOptions.readOnly options)].
  unfold private_arrays. cbn. rewrite !length_app. cbn.
  unfold Heap in *. split; [done|]. split; [done|]. split.
  { apply list_lookup_middle. rewrite length_app. cbn. lia. }
  split.
  { rewrite lookup_app_l by (rewrite length_app; cbn; lia).
    by apply list_lookup_middle. }
  eapply Forall_impl; [exact Hheld|]. cbn. intros a Ha. lia.
Qed.

(** No call gives the caller one of the factory's arrays, and none changes
    them. *)
Lemma call_private (ft df : nat) (lft ldf : list string) (c : ABCWidgetFactory.Call U)
    (s : ABCWidgetFactory.Session T) :
  private_arrays ft df lft ldf s ->
  exists s',
    ABCWidgetFactory.call createNewWidget c s = Some s' /\
    private_arrays ft df lft ldf s'.
Proof.
  unfold private_arrays, Heap in *. intros (Hft & Hdf & Hlft & Hldf & Hheld).
  pose proof (lookup_lt_Some _ _ _ Hlft) as Hft_lt.
  pose proof (lookup_lt_Some _ _ _ Hldf) as Hdf_lt.
  destruct c as [| |k elements|context|]; cbn [ABCWidgetFactory.call].
  - unfold ABCWidgetFactory.fileTypes. rewrite Hft, (slice_lookup _ _ _ Hlft). cbn.
    eexists. split; [reflexivity|]. cbn. unfold Heap in *.
    rewrite !lookup_app_l by done. repeat split; try done.
    apply Forall_app. split; [done|]. apply Forall_singleton. lia.
  - unfold ABCWidgetFactory.defaultFor. rewrite Hdf, (slice_lookup _ _ _ Hldf). cbn.
    eexists. split; [reflexivity|]. cbn. unfold Heap in *.
    rewrite !lookup_app_l by done. repeat split; try done.
    apply Forall_app. split; [done|]. apply Forall_singleton. lia.
  - destruct (ABCWidgetFactory.held s !! k) as [a|] eqn:Hk.
    + destruct (Forall_lookup_1 _ _ _ _ Hheld Hk) as [Ha1 Ha2].
      eexists. split; [reflexivity|]. cbn. unfold Heap in *.
      by rewrite !list_lookup_insert_ne by done.
    + by exists s.
  - eexists. split; [reflexivity|]. done.
  - eexists. split; [reflexivity|]. done.
Qed.

Lemma calls_private (ft df : nat) (lft ldf : list string)
    (cs : list (ABCWidgetFactory.Call U)) (s : ABCWidgetFactory.Session T) :
  private_arrays ft df lft ldf s ->
  exists s',
    ABCWidgetFactory.calls createNewWidget cs s = Some s' /\
    private_arrays ft df lft ldf s'.
Proof.
  revert s. induction cs as [|c cs IH]; intros s Hs; [by exists s|].
  destruct (call_private ft df lft ldf c s Hs) as (s1 & Hc & Hs1).
  destruct (IH s1 Hs1) as (s' & Hcs & Hs').
  exists s'. split; [|done]. cbn [ABCWidgetFactory.calls]. by rewrite Hc.
Qed.

(** The emissions and the widgets returned, call after call. *)
Lemma calls_widgets (cs : list (ABCWidgetFactory.Call U)) (s s' : ABCWidgetFactory.Session T) :
  ABCWidgetFactory.calls createNewWidget cs s = Some s' ->
  ABCWidgetFactory._widgetCreated (ABCWidgetFactory.factory s')
  = ABCWidgetFactory._widgetCreated (ABCWidgetFactory.factory s)
    ++ requested createNewWidget cs /\
  ABCWidgetFactory.widgets s'
  = ABCWidgetFactory.widgets s ++ requested createNewWidget cs.
Proof.
  revert s. induction cs as [|c cs IH]; intros s.
  - intros [= <-]. unfold requested. cbn. by rewrite !app_nil_r.
  - cbn [ABCWidgetFactory.calls].
    destruct (ABCWidgetFactory.call createNewWidget c s) as [s1|] eqn:Hc; [|done].
    cbn. intros Hcs.
    destruct (IH s1 Hcs) as [-> ->]. clear IH Hcs.
    destruct c as [| |k elements|context|]; cbn [ABCWidgetFactory.call] in Hc.
    + destruct (ABCWidgetFactory.fileTypes _ _) as [[a h]|]; [|done].
      by injection Hc as <-.
    + destruct (ABCWidgetFactory.defaultFor _ _) as [[a h]|]; [|done].
      by injection Hc as <-.
    + destruct (ABCWidgetFactory.held s !! k); by injection Hc as <-.
    + injection Hc as <-. unfold requested. cbn. by rewrite <- !app_assoc.
    + by injection Hc as <-.
Qed.

(** X16.  A factory keeps its own copies of the [fileTypes] and
    [defaultFor] arrays: whatever the caller does afterwards to the arrays
    it passed in the options, or to those the getters returned, every call
    returns and the getters go on returning the elements the options'
    arrays had when the factory was constructed (no element for an absent
    [defaultFor]). *)
Theorem X16_factory_arrays_private (options : IWidgetFactoryOptions.t) (h0 : Heap)
    (held0 : list nat) (cs : list (ABCWidgetFactory.Call U)) :
  IWidgetFactoryOptions.fileTypes options < length h0 ->
  (forall d, IWidgetFactoryOptions.defaultFor options = Some d -> d < length h0) ->
  Forall (fun a => a < length h0) held0 ->
  exists f h1 s,
    ABCWidgetFactory.constructor options h0 = Some (f, h1) /\
    ABCWidgetFactory.calls createNewWidget cs
      (ABCWidgetFactory.mkSession f h1 held0 []) = Some s /\
    (exists a h,
        ABCWidgetFactory.fileTypes (ABCWidgetFactory.factory s) (ABCWidgetFactory.heap s)
        = Some (a, h) /\
        h !! a = h0 !! IWidgetFactoryOptions.fileTypes options) /\
    (exists a h,
        ABCWidgetFactory.defaultFor (ABCWidgetFactory.factory s) (ABCWidgetFactory.heap s)
        = Some (a, h) /\
        h !! a = match IWidgetFactoryOptions.defaultFor options with
                 | Some d => h0 !! d
                 | None => Some []
                 end).
Proof.
  intros Hft Hdf Hheld.
  destruct (constructor_private options h0 held0 Hft Hdf Hheld)
    as (f & h1 & lft & ldf & Hc & Hlft & Hldf & Hp & _).
  destruct (calls_private _ _ lft ldf cs _ Hp) as (s & Hcs & Hf & Hd & Hl1 & Hl2 & _).
  exists f, h1, s. split; [done|]. split; [done|]. split.
  - eexists _, _. unfold ABCWidgetFactory.fileTypes.
    rewrite Hf, (slice_lookup _ _ _ Hl1). split; [reflexivity|].
    rewrite Hlft. by apply list_lookup_middle.
  - eexists _, _. unfold ABCWidgetFactory.defaultFor.
    rewrite Hd, (slice_lookup _ _ _ Hl2). split; [reflexivity|].
    rewrite Hldf. by apply list_lookup_middle.
Qed.

(** X17.  [createNew] emits [widgetCreated] once for every widget it
    returns, with that widget, in the order of the calls; the factory has
    no guard on disposal, so this holds as well for calls made after
    [dispose]. *)
Theorem X17_widgetCreated_per_widget (options : IWidgetFactoryOptions.t) (h0 : Heap)
    (held0 : list nat) (cs : list (ABCWidgetFactory.Call U)) :
  IWidgetFactoryOptions.fileTypes options < length h0 ->
  (forall d, IWidgetFactoryOptions.defaultFor options = Some d -> d < length h0) ->
  Forall (fun a => a < length h0) held0 ->
  exists f h1 s,
    ABCWidgetFactory.constructor options h0 = Some (f, h1) /\
    ABCWidgetFactory.calls createNewWidget cs
      (ABCWidgetFactory.mkSession f h1 held0 []) = Some s /\
    ABCWidgetFactory._widgetCreated (ABCWidgetFactory.factory s)
    = requested createNewWidget cs /\
    ABCWidgetFactory.widgets s = requested createNewWidget cs.
Proof.
  intros Hft Hdf Hheld.
  destruct (constructor_private options h0 held0 Hft Hdf Hheld)
    as (f & h1 & lft & ldf & Hc & _ & _ & Hp & _ & _ & _ & Hw).
  destruct (calls_private _ _ lft ldf cs _ Hp) as (s & Hcs & _).
  exists f, h1, s. split; [done|]. split; [done|].
  destruct (calls_widgets cs _ s Hcs) as [-> ->]. cbn. by rewrite Hw.
Qed.

End FactoryFacts.

Section MimeFactoryFacts.

Variable number : Type.
Variable truthy : number -> bool.
Variable thousand : number.
Variable U : Type.

Hypothesis thousand_truthy : truthy thousand = true.

Lemma number_or_truthy (n : option number) :
  truthy (MimeDocumentFactory.number_or truthy n thousand) = true.
Proof.
  unfold MimeDocumentFactory.number_or. destruct n as [x|]; [|done].
  by destruct (truthy x) eqn:Hx.
Qed.

Lemma string_or_nonempty (s : option string) (d : string) :
  d <> EmptyString -> string_or s d <> EmptyString.
Proof. intros Hd. by destruct s as [[|c s]|]. Qed.

(** X18.  Whatever its options say ([readOnly: false], a render timeout of
    zero, no model name), a [MimeDocumentFactory] is read-only, has a model
    name, and gives every widget it creates a render timeout that is not
    falsy (the option's when that is truthy, [1000] otherwise) and a mime
    type: the first of the file type, [text/plain] when it has none. *)
Theorem X18_mime_factory_defaults (options : MimeDocumentFactory.IOptions number)
    (h0 : Heap) :
  IWidgetFactoryOptions.fileTypes (MimeDocumentFactory.registry options) < length h0 ->
  (forall d,
      IWidgetFactoryOptions.defaultFor (MimeDocumentFactory.registry options) = Some d ->
      d < length h0) ->
  exists f h1,
    MimeDocumentFactory.constructor truthy thousand options h0 = Some (f, h1) /\
    ABCWidgetFactory.readOnly (MimeDocumentFactory.super f) = true /\
    ABCWidgetFactory.modelName (MimeDocumentFactory.super f) <> EmptyString /\
    forall context : U,
      let widget := (MimeDocumentFactory.createNew context f).1 in
      truthy (MimeDocument.timeout widget) = true /\
      MimeDocument.timeout widget
      = MimeDocumentFactory.number_or truthy
          (MimeDocumentFactory.renderTimeout options) thousand /\
      MimeDocument._mimeType widget
      = default "text/plain"
          (head (IFileType.mimeTypes (MimeDocumentFactory.primaryFileType options))).
Proof.
  intros Hft Hdf. unfold MimeDocumentFactory.constructor.
  destruct (constructor_private (MimeDocument.t number)
              (MimeDocumentFactory.createRegistryOptions options) h0 [] Hft Hdf)
    as (s & h1 & lft & ldf & -> & _ & _ & _ & Hro & Hmn & _); [done|].
  cbn. eexists _, _. split; [reflexivity|]. cbn.
  unfold ABCWidgetFactory.readOnly, ABCWidgetFactory.modelName.
  rewrite Hro, Hmn. split; [done|]. split; [by apply string_or_nonempty|].
  intros context. cbn. split; [apply number_or_truthy|]. split; [done|].
  by destruct (IFileType.mimeTypes (MimeDocumentFactory.primaryFileType options)).
Qed.

End MimeFactoryFacts.

(** ** The properties at concrete inputs *)

Section MoreConcrete.

Import Examples FactoryExamples.

Lemma X5_title_class_grows_witness :
  title_className (Nat.iter 2 dirty_cycle bound) = "jp-Document" +:+ spaces 2.
Proof. apply (X5_title_class_grows 2 bound); reflexivity. Defined.

Lemma X6_toJSON_blank_buffer_witness :
  toJSON (num := Z) blank = Raised SyntaxError.
Proof.
  apply (X6_toJSON_blank_buffer (num := Z) blank); [discriminate|reflexivity].
Defined.


Lemma X10_onConnected_witness :
  uuid (editor (onConnected style shared)) = "A" /\
  ISelectionStyle.color (selectionStyle (editor (onConnected style shared))) = "red" /\
  selections (editor (onConnected style shared)) !! "B" = None.
Proof.
  destruct (X10_onConnected style (mkCollaborators alice {[ "A" := alice ]}) shared
              eq_refl) as (Hu & Hs & _ & Hk & _).
  split; [exact Hu|]. split; [by rewrite Hs|].
  destruct (selections (editor (onConnected style shared)) !! "B") as [x|] eqn:Hb;
    [|reflexivity].
  specialize (Hk "B"). rewrite Hb in Hk. discriminate (Hk (mk_is_Some _ _ eq_refl)).
Defined.

Lemma X12_not_bound_before_ready_witness :
  exists w0 w,
    constructor false 2 local_options = Returned w0 /\
    run false style (num := Z) 2 [FromString "x"; SetDirty true; Dispose] w0
      = Returned w /\
    title_className w = EmptyString /\
    stateChanged_connected w = false /\
    contentChanged_connected w = false /\
    ready_resolved w = false /\
    editor_model (editor w) = editor_model (editor w0).
Proof.
  apply (X12_not_bound_before_ready false style (num := Z) 0 local_options
           [FromString "x"; SetDirty true; Dispose]).
  repeat constructor; discriminate.
Defined.

Lemma X14_no_echo_writes_witness :
  exists w0 w,
    constructor false 2 local_options = Returned w0 /\
    run false style (num := Z) 2 [ContextReady; FromString "x"; FromString "y"] w0
      = Returned w /\
    buffer_writes w = (if ready_resolved w then 2 else 1).
Proof.
  apply (X14_no_echo_writes false style (num := Z) 0 local_options
           [ContextReady; FromString "x"; FromString "y"]).
  reflexivity.
Defined.

Lemma X15_label_drops_drive_witness :
  FileEditor._onPathChanged widget_of widget_of "Drive:dir/a.txt"
    (FileEditor.mk EmptyString EmptyString)
  = Some (FileEditor.mk "Drive:dir/a.txt" "dir/a.txt").
Proof.
  apply (X15_label_drops_drive widget_of widget_of (Some "Drive")
           "dir/a.txt" (FileEditor.mk EmptyString EmptyString)).
  reflexivity.
Defined.

Lemma X16_factory_arrays_private_witness :
  exists f h1 s,
    ABCWidgetFactory.constructor factory_options arrays = Some (f, h1) /\
    ABCWidgetFactory.calls widget_of changes (ABCWidgetFactory.mkSession f h1 [0; 1] [])
      = Some s /\
    (exists a h,
        ABCWidgetFactory.fileTypes (ABCWidgetFactory.factory s) (ABCWidgetFactory.heap s)
        = Some (a, h) /\
        h !! a = Some ["txt"; "md"]) /\
    (exists a h,
        ABCWidgetFactory.defaultFor (ABCWidgetFactory.factory s) (ABCWidgetFactory.heap s)
        = Some (a, h) /\
        h !! a = Some ["txt"]).
Proof.
  apply (X16_factory_arrays_private string string widget_of factory_options arrays
           [0; 1] changes).
  - cbn. lia.
  - intros d [= <-]. cbn. lia.
  - repeat constructor; cbn; lia.
Defined.

Lemma X17_widgetCreated_per_widget_witness :
  exists f h1 s,
    ABCWidgetFactory.constructor factory_options arrays = Some (f, h1) /\
    ABCWidgetFactory.calls widget_of changes (ABCWidgetFactory.mkSession f h1 [0; 1] [])
      = Some s /\
    ABCWidgetFactory._widgetCreated (ABCWidgetFactory.factory s) = ["a.txt"; "b.txt"] /\
    ABCWidgetFactory.widgets s = ["a.txt"; "b.txt"].
Proof.
  apply (X17_widgetCreated_per_widget string string widget_of factory_options arrays
           [0; 1] changes).
  - cbn. lia.
  - intros d [= <-]. cbn. lia.
  - repeat constructor; cbn; lia.
Defined.

Lemma X18_mime_factory_defaults_witness :
  exists f h1,
    MimeDocumentFactory.constructor nonzero 1000%Z mime_options arrays = Some (f, h1) /\
    ABCWidgetFactory.readOnly (MimeDocumentFactory.super f) = true /\
    ABCWidgetFactory.modelName (MimeDocumentFactory.super f) <> EmptyString /\
    forall context : string,
      let widget := (MimeDocumentFactory.createNew context f).1 in
      nonzero (MimeDocument.timeout widget) = true /\
      MimeDocument.timeout widget = 1000%Z /\
      MimeDocument._mimeType widget = "text/markdown".
Proof.
  apply (X18_mime_factory_defaults Z nonzero 1000%Z string eq_refl mime_options arrays).
  - cbn. lia.
  - intros d [= <-]. cbn. lia.
Defined.

End MoreConcrete.
